(** * Semantic Scholar fetcher and CSV exporter

    A shallow embedding of [src/mydataset/semanticscholar.py]:
    [search_semantic_scholar] (the paginated fetcher, first definition in
    the file) and [save_papers_to_file] (the CSV exporter), together with the
    parts of the Python runtime they rely on (decoded JSON values, [range],
    [str.join], [requests]' status check and the [csv] module's default
    dialect).

    Conventions of the model:
    - Python integers are [Z]; JSON numbers are integers (the only numeric
      field of the API is the year), fractional numbers are not represented;
    - a Python [str] is a [string], one [ascii] per character; a [str] that
      cannot be encoded (a lone surrogate) is not represented, so that
      encoding a string, for a request, for the standard output or for the
      file, does not fail in the model;
    - a raised exception is the [Raise] constructor of [result];
    - the HTTP server and the file system are explicit parameters. *)

From Stdlib Require Import ZArith List String Ascii Bool Lia DecimalString.
Import ListNotations.

Set Warnings "-register-all".

Local Open Scope string_scope.
Local Open Scope Z_scope.

(** ** Exceptions and results *)

Inductive exn : Type :=
| TypeError
| KeyError
| AttributeError
| ValueError
| HTTPError
| RequestException
| CsvError
| OSError.

Inductive result (A : Type) : Type :=
| OK (a : A)
| Raise (e : exn).

Arguments OK {A} a.
Arguments Raise {A} e.

Definition bind {A B : Type} (r : result A) (k : A -> result B) : result B :=
  match r with
  | OK a => k a
  | Raise e => Raise e
  end.

Notation "x <- r ;; k" := (bind r (fun x => k))
  (at level 61, r at next level, right associativity).

Fixpoint mapM {A B : Type} (f : A -> result B) (l : list A) : result (list B) :=
  match l with
  | [] => OK []
  | a :: l' => b <- f a ;; bs <- mapM f l' ;; OK (b :: bs)
  end.

(** ** Characters *)

Definition dquote : ascii := "034"%char.
Definition squote : ascii := "039"%char.
Definition backslash : ascii := "092"%char.
Definition tab : ascii := "009"%char.
Definition lf : ascii := "010"%char.
Definition cr : ascii := "013"%char.
Definition comma : ascii := ","%char.

Definition str1 (c : ascii) : string := String c EmptyString.

(** ** Decoded JSON values

    What [response.json()] hands to the program: [None], [bool], [int],
    [str], [list] and [dict] objects.  A [dict] is kept as its items in
    insertion order. *)

Inductive value : Type :=
| VNone
| VBool (b : bool)
| VInt (z : Z)
| VStr (s : string)
| VList (l : list value)
| VDict (d : list (string * value)).

Fixpoint dict_lookup (key : string) (d : list (string * value)) : option value :=
  match d with
  | [] => None
  | (k, v) :: d' => if String.eqb k key then Some v else dict_lookup key d'
  end.

(** [str(n)] for an integer. *)
Definition str_of_int (z : Z) : string := NilEmpty.string_of_int (Z.to_int z).

(** [repr] of a string: single quotes unless the string holds a single
    quote and no double quote; backslash escapes for the quote, the
    backslash, tab, line feed, carriage return and the characters that
    [str.isprintable] rejects. *)
Definition hex_digit (n : nat) : ascii :=
  nth n ["0"; "1"; "2"; "3"; "4"; "5"; "6"; "7";
         "8"; "9"; "a"; "b"; "c"; "d"; "e"; "f"]%char "0"%char.

Definition printable (c : ascii) : bool :=
  let n := nat_of_ascii c in
  ((32 <=? n) && (n <=? 126) || (161 <=? n) && negb (n =? 173))%nat.

Definition repr_char (quote c : ascii) : string :=
  if Ascii.eqb c quote || Ascii.eqb c backslash then String backslash (str1 c)
  else if Ascii.eqb c tab then "\t"
  else if Ascii.eqb c lf then "\n"
  else if Ascii.eqb c cr then "\r"
  else if printable c then str1 c
  else let n := nat_of_ascii c in
       String backslash (String "x" (String (hex_digit (n / 16)) (str1 (hex_digit (n mod 16))))).

Fixpoint has_char (c : ascii) (s : string) : bool :=
  match s with
  | EmptyString => false
  | String a s' => Ascii.eqb a c || has_char c s'
  end.

Fixpoint repr_chars (quote : ascii) (s : string) : string :=
  match s with
  | EmptyString => EmptyString
  | String c s' => repr_char quote c ++ repr_chars quote s'
  end.

Definition repr_str (s : string) : string :=
  let quote := if has_char squote s && negb (has_char dquote s) then dquote else squote in
  String quote (repr_chars quote s ++ str1 quote).

Fixpoint py_repr (v : value) : string :=
  match v with
  | VNone => "None"
  | VBool true => "True"
  | VBool false => "False"
  | VInt z => str_of_int z
  | VStr s => repr_str s
  | VList l => "[" ++ String.concat ", " (map py_repr l) ++ "]"
  | VDict d =>
      "{" ++ String.concat ", "
               (map (fun kv => match kv with
                               | (k, x) => repr_str k ++ ": " ++ py_repr x
                               end) d) ++ "}"
  end.

(** [str(v)], which is what an f-string placeholder inserts. *)
Definition py_str (v : value) : string :=
  match v with
  | VStr s => s
  | _ => py_repr v
  end.

(** Truth value of an object, as tested by [if] and [and]. *)
Definition py_truthy (v : value) : bool :=
  match v with
  | VNone => false
  | VBool b => b
  | VInt z => negb (z =? 0)
  | VStr s => negb (String.eqb s EmptyString)
  | VList l => match l with [] => false | _ => true end
  | VDict d => match d with [] => false | _ => true end
  end.

(** [obj.get(key, default)]: only a [dict] has the method. *)
Definition py_get (obj : value) (key : string) (default : value) : result value :=
  match obj with
  | VDict d => OK (match dict_lookup key d with Some v => v | None => default end)
  | _ => Raise AttributeError
  end.

(** [obj[key]] with a string key. *)
Definition py_getitem (obj : value) (key : string) : result value :=
  match obj with
  | VDict d => match dict_lookup key d with Some v => OK v | None => Raise KeyError end
  | _ => Raise TypeError
  end.

Fixpoint chars_of (s : string) : list value :=
  match s with
  | EmptyString => []
  | String c s' => VStr (str1 c) :: chars_of s'
  end.

(** The items a [for] loop (or a comprehension, or [enumerate]) draws from
    an object. *)
Definition py_iter (obj : value) : result (list value) :=
  match obj with
  | VList l => OK l
  | VDict d => OK (map (fun kv => VStr (fst kv)) d)
  | VStr s => OK (chars_of s)
  | _ => Raise TypeError
  end.

(** [len(obj)]. *)
Definition py_len (obj : value) : result Z :=
  match obj with
  | VList l => OK (Z.of_nat (List.length l))
  | VDict d => OK (Z.of_nat (List.length d))
  | VStr s => OK (Z.of_nat (String.length s))
  | _ => Raise TypeError
  end.

Definition is_str (key : string) (v : value) : bool :=
  match v with
  | VStr s => String.eqb s key
  | _ => false
  end.

(** [key in obj] with a string key: key membership for a [dict], element
    membership for a [list], substring test for a [str]. *)
Definition py_in (key : string) (obj : value) : result bool :=
  match obj with
  | VDict d => OK (match dict_lookup key d with Some _ => true | None => false end)
  | VList l => OK (existsb (is_str key) l)
  | VStr s => OK (match String.index 0 key s with Some _ => true | None => false end)
  | _ => Raise TypeError
  end.

Definition as_str (v : value) : result string :=
  match v with
  | VStr s => OK s
  | _ => Raise TypeError
  end.

(** [sep.join(items)]: every item has to be a [str]. *)
Definition py_join (sep : string) (items : list value) : result string :=
  ss <- mapM as_str items ;; OK (String.concat sep ss).

(** [range(start, stop, step)], the offsets of the pagination loop. *)
Definition range_len (start stop step : Z) : Z :=
  if 0 <? step then
    (if start <? stop then (stop - start - 1) / step + 1 else 0)
  else
    (if stop <? start then (start - stop - 1) / (- step) + 1 else 0).

Definition py_range (start stop step : Z) : result (list Z) :=
  if step =? 0 then Raise ValueError
  else OK (map (fun i => start + Z.of_nat i * step)
               (seq 0 (Z.to_nat (range_len start stop step)))).

(** ** The fetcher: [search_semantic_scholar] *)

(** The [params] dictionary of one page request. *)
Record request : Type := {
  q_query : string;
  q_offset : Z;
  q_limit : Z;
  q_fields : string
}.

(** What [requests.get] produces: it raises a [RequestException]
    (connection failure, timeout, ...), or it returns a response with a
    status code and a body; [None] stands for a body that is not JSON.  A
    call that fails before anything is sent because the query cannot be
    encoded is not represented: every [string] of the model can be
    encoded. *)
Inductive response : Type :=
| NoResponse
| Response (status_code : Z) (body : option value).

(** The remote API, asked with the number of the call and its parameters. *)
Definition server : Type := nat -> request -> response.

(** [response.raise_for_status()]: [requests] raises [HTTPError] for the
    client-error and server-error status codes, 400 to 599. *)
Definition raise_for_status (status_code : Z) : result unit :=
  if (400 <=? status_code) && (status_code <? 600) then Raise HTTPError else OK tt.

(** [response.json()]. *)
Definition response_json (body : option value) : result value :=
  match body with
  | Some data => OK data
  | None => Raise ValueError
  end.

(** One result record, the dictionary built for each entry. *)
Record paper : Type := {
  title : value;
  summary : value;
  authors : list value;
  published : value;
  pdf_url : value;
  references : string
}.

(** [[author["name"] for author in obj.get("authors", [])]] (lines 44
    and 53). *)
Definition author_names (obj : value) : result (list value) :=
  authors_field <- py_get obj "authors" (VList []) ;;
  items <- py_iter authors_field ;;
  mapM (fun author => py_getitem author "name") items.

(** The f-string of one citation: index in brackets, authors, quoted
    title with its comma inside the quotes, year, full stop. *)
Definition citation (idx : Z) (ref_authors : string) (ref_title ref_year : value) : string :=
  "[" ++ str_of_int idx ++ "] " ++ ref_authors ++ ", " ++ str1 dquote
      ++ py_str ref_title ++ "," ++ str1 dquote ++ " " ++ py_str ref_year ++ ".".

(** The body of the loop over [enumerate(references, start=1)] (lines
    51-56). *)
Definition formatted_reference (idx : Z) (ref : value) : result string :=
  ref_title <- py_get ref "title" (VStr "No title") ;;
  names <- author_names ref ;;
  ref_authors <- py_join ", " names ;;
  ref_year <- py_get ref "year" (VStr "Unknown") ;;
  OK (citation idx ref_authors ref_title ref_year).

Fixpoint reference_list (idx : Z) (refs : list value) : result (list string) :=
  match refs with
  | [] => OK []
  | ref :: rest =>
      s <- formatted_reference idx ref ;;
      ss <- reference_list (idx + 1) rest ;;
      OK (s :: ss)
  end.

Definition no_references : string := "No references available".

(** The record built from one entry of [data["data"]] (lines 43-65). *)
Definition make_paper (entry : value) : result paper :=
  title_ <- py_get entry "title" (VStr "No title") ;;
  authors_ <- author_names entry ;;
  abstract <- py_get entry "abstract" (VStr "No abstract available") ;;
  year <- py_get entry "year" (VStr "Unknown") ;;
  url <- py_get entry "url" (VStr "No URL available") ;;
  refs_field <- py_get entry "references" (VList []) ;;
  refs <- py_iter refs_field ;;
  formatted <- reference_list 1 refs ;;
  OK {| title := title_;
        summary := abstract;
        authors := authors_;
        published := year;
        pdf_url := url;
        references := match formatted with
                      | [] => no_references
                      | _ => String.concat " " formatted
                      end |}.

Definition len (papers : list paper) : Z := Z.of_nat (List.length papers).

(** The loop [for entry in data["data"]] (lines 42-70): each record is
    appended before the next entry is looked at, the loop is left once
    [max_papers] is reached, and an exception leaves the records appended so
    far in place. *)
Fixpoint add_entries (max_papers : Z) (entries : list value) (papers : list paper)
  : list paper * option exn :=
  match entries with
  | [] => (papers, None)
  | entry :: rest =>
      match make_paper entry with
      | Raise e => (papers, Some e)
      | OK p =>
          let papers' := (papers ++ [p])%list in
          if max_papers <=? len papers' then (papers', None)
          else add_entries max_papers rest papers'
      end
  end.

(** The part of the [try] block before the loop over the entries (lines
    30-40): [Some (entries, n)] when [data["data"]] is there and true, with
    its items and its length; [None] for the [else] branch of line 72.  A
    failure of [requests.get] is a [RequestException]; a call that raises
    something else before a response is there (a query that cannot be
    encoded), after which the handlers of lines 87 and 94 would read an
    unbound [response], is outside the model. *)
Definition page_entries (resp : response) : result (option (list value * Z)) :=
  match resp with
  | NoResponse => Raise RequestException
  | Response status_code body =>
      _ <- raise_for_status status_code ;;
      data <- response_json body ;;
      present <- py_in "data" data ;;
      if present then
        found <- py_getitem data "data" ;;
        if py_truthy found then
          n <- py_len found ;;
          entries <- py_iter found ;;
          OK (Some (entries, n))
        else OK None
      else OK None
  end.

(** Why the pagination loop is left. *)
Inductive stop : Type :=
| Caught (e : exn)
| NoPapers
| Exhausted.

Inductive flow : Type :=
| Continue
| Break (why : stop).

(** One iteration of the [for offset in range(...)] loop, after the request
    is sent (lines 29-98): every [except] clause leaves the loop, as do the
    [else] branch and a page shorter than [batch_size]; otherwise the loop
    goes on, also when [max_papers] was reached inside the page. *)
Definition process_page (max_papers batch_size : Z) (papers : list paper) (resp : response)
  : list paper * flow :=
  match page_entries resp with
  | Raise e => (papers, Break (Caught e))
  | OK None => (papers, Break NoPapers)
  | OK (Some (entries, n)) =>
      match add_entries max_papers entries papers with
      | (papers', Some e) => (papers', Break (Caught e))
      | (papers', None) =>
          if n <? batch_size then (papers', Break Exhausted) else (papers', Continue)
      end
  end.

Definition fields : string := "title,authors,abstract,year,url,references".

Definition make_request (query : string) (max_papers batch_size offset : Z)
    (papers : list paper) : request :=
  {| q_query := query;
     q_offset := offset;
     q_limit := Z.min batch_size (max_papers - len papers);
     q_fields := fields |}.

(** A run is observed through the requests it sends, each with the records
    held when it was sent.  The loop of line 19 goes through the offsets of
    [range(0, max_papers, batch_size)]. *)
Definition trace : Type := list (list paper * request).

Fixpoint pages (api : server) (query : string) (max_papers batch_size : Z)
    (call : nat) (offsets : list Z) (papers : list paper) : list paper * trace :=
  match offsets with
  | [] => (papers, [])
  | offset :: rest =>
      let req := make_request query max_papers batch_size offset papers in
      match process_page max_papers batch_size papers (api call req) with
      | (papers', Continue) =>
          let (final, tr) := pages api query max_papers batch_size (S call) rest papers' in
          (final, (papers, req) :: tr)
      | (papers', Break _) => (papers', [(papers, req)])
      end
  end.

Definition search_run (api : server) (query : string) (max_papers batch_size : Z)
  : result (list paper * trace) :=
  offsets <- py_range 0 max_papers batch_size ;;
  OK (pages api query max_papers batch_size 0 offsets []).

Definition search_semantic_scholar (api : server) (query : string)
    (max_papers batch_size : Z) : result (list paper) :=
  run <- search_run api query max_papers batch_size ;; OK (fst run).

(** ** The [csv] module, default ([excel]) dialect

    Delimiter [,], quote character, doubled quotes, [QUOTE_MINIMAL], line
    terminator CR LF, no escape character, not strict.  The text of a file
    is a list of characters; the file is opened with an empty [newline],
    so what is written is what is stored. *)

Definition text : Type := list ascii.

Definition special (c : ascii) : bool :=
  Ascii.eqb c comma || Ascii.eqb c dquote || Ascii.eqb c cr || Ascii.eqb c lf.

(** The writer quotes a field that holds the delimiter, the quote character
    or a character of the line terminator, and doubles the quotes in it. *)
Definition needs_quotes (field : text) : bool := existsb special field.

Fixpoint double_quotes (field : text) : text :=
  match field with
  | [] => []
  | c :: rest =>
      if Ascii.eqb c dquote then dquote :: dquote :: double_quotes rest
      else c :: double_quotes rest
  end.

Definition render_field (field : text) : text :=
  if needs_quotes field then (dquote :: double_quotes field ++ [dquote])%list else field.

Fixpoint join_fields (rendered : list text) : text :=
  match rendered with
  | [] => []
  | [f] => f
  | f :: rest => (f ++ comma :: join_fields rest)%list
  end.

(** [writer.writerow(cells)]: a row made of one empty field is written as a
    pair of quotes. *)
Definition render_row (cells : list text) : text :=
  match cells with
  | [[]] => [dquote; dquote; cr; lf]
  | _ => (join_fields (map render_field cells) ++ [cr; lf])%list
  end.

(** The text the writer stores for a cell: a [str] as it is, [None] as the
    empty string, anything else through [str]. *)
Definition csv_text (v : value) : string :=
  match v with
  | VNone => EmptyString
  | _ => py_str v
  end.

(** The reader's state machine. *)
Inductive parser_state : Type :=
| START_RECORD
| START_FIELD
| IN_FIELD
| IN_QUOTED_FIELD
| QUOTE_IN_QUOTED_FIELD
| EAT_CRNL.

Record reader : Type := {
  rd_state : parser_state;
  rd_field : text;
  rd_fields : list text
}.

Definition new_reader : reader :=
  {| rd_state := START_RECORD; rd_field := []; rd_fields := [] |}.

Definition goto (s : parser_state) (rd : reader) : reader :=
  {| rd_state := s; rd_field := rd_field rd; rd_fields := rd_fields rd |}.

Definition add_char (c : ascii) (rd : reader) : reader :=
  {| rd_state := rd_state rd; rd_field := (rd_field rd ++ [c])%list; rd_fields := rd_fields rd |}.

Definition save_field (rd : reader) : reader :=
  {| rd_state := rd_state rd; rd_field := []; rd_fields := (rd_fields rd ++ [rd_field rd])%list |}.

(** What the state machine is fed: a character, or the end of a line. *)
Inductive symbol : Type :=
| Chr (c : ascii)
| EOL.

Definition is_newline (c : ascii) : bool := Ascii.eqb c lf || Ascii.eqb c cr.

Definition start_field (rd : reader) (x : symbol) : reader :=
  match x with
  | EOL => goto START_RECORD (save_field rd)
  | Chr c =>
      if is_newline c then goto EAT_CRNL (save_field rd)
      else if Ascii.eqb c dquote then goto IN_QUOTED_FIELD rd
      else if Ascii.eqb c comma then goto START_FIELD (save_field rd)
      else goto IN_FIELD (add_char c rd)
  end.

Definition process_char (rd : reader) (x : symbol) : result reader :=
  match rd_state rd with
  | START_RECORD =>
      match x with
      | EOL => OK rd
      | Chr c => if is_newline c then OK (goto EAT_CRNL rd) else OK (start_field rd x)
      end
  | START_FIELD => OK (start_field rd x)
  | IN_FIELD =>
      match x with
      | EOL => OK (goto START_RECORD (save_field rd))
      | Chr c =>
          if is_newline c then OK (goto EAT_CRNL (save_field rd))
          else if Ascii.eqb c comma then OK (goto START_FIELD (save_field rd))
          else OK (add_char c rd)
      end
  | IN_QUOTED_FIELD =>
      match x with
      | EOL => OK rd
      | Chr c =>
          if Ascii.eqb c dquote then OK (goto QUOTE_IN_QUOTED_FIELD rd)
          else OK (add_char c rd)
      end
  | QUOTE_IN_QUOTED_FIELD =>
      match x with
      | EOL => OK (goto START_RECORD (save_field rd))
      | Chr c =>
          if Ascii.eqb c dquote then OK (goto IN_QUOTED_FIELD (add_char c rd))
          else if Ascii.eqb c comma then OK (goto START_FIELD (save_field rd))
          else if is_newline c then OK (goto EAT_CRNL (save_field rd))
          else OK (goto IN_FIELD (add_char c rd))
      end
  | EAT_CRNL =>
      match x with
      | EOL => OK (goto START_RECORD rd)
      | Chr c => if is_newline c then OK rd else Raise CsvError
      end
  end.

(** Iterating over a file opened with an empty [newline] yields its lines, each
    ending after a line feed, after a carriage return that no line feed
    follows, or at the end of the file. *)
Definition line_ends (c : ascii) (rest : text) : bool :=
  match rest with
  | [] => true
  | c' :: _ => Ascii.eqb c lf || (Ascii.eqb c cr && negb (Ascii.eqb c' lf))
  end.

(** What is left in the reader when the input ends inside a record. *)
Definition at_end_of_input (rd : reader) : list (list text) :=
  match rd_field rd, rd_state rd with
  | [], IN_QUOTED_FIELD => [rd_fields (save_field rd)]
  | [], _ => []
  | _ :: _, _ => [rd_fields (save_field rd)]
  end.

(** The rows of a text: the characters of each line go through the state
    machine, then [EOL]; a record is complete when the machine is back in
    [START_RECORD] at the end of a line.  This is [list(csv.reader(file))]
    with the bound on the size of a field lifted; the reader with the bound
    is [read_rows_within] below. *)
Fixpoint read_rows (rd : reader) (input : text) : result (list (list text)) :=
  match input with
  | [] => OK (at_end_of_input rd)
  | c :: rest =>
      rd1 <- process_char rd (Chr c) ;;
      if line_ends c rest then
        rd2 <- process_char rd1 EOL ;;
        match rd_state rd2 with
        | START_RECORD => rows <- read_rows new_reader rest ;; OK (rd_fields rd2 :: rows)
        | _ => read_rows rd2 rest
        end
      else read_rows rd1 rest
  end.

Definition csv_reader (input : text) : result (list (list text)) :=
  read_rows new_reader input.

(** [csv.field_size_limit()], the default bound on the size of a field. *)
Definition field_size_limit : Z := 131072.

(** The reader adds a character to the field only while the field is
    shorter than the limit, and raises [csv.Error] otherwise. *)
Definition add_char_within (limit : Z) (c : ascii) (rd : reader) : result reader :=
  if limit <=? Z.of_nat (List.length (rd_field rd)) then Raise CsvError
  else OK (add_char c rd).

Definition start_field_within (limit : Z) (rd : reader) (x : symbol) : result reader :=
  match x with
  | EOL => OK (goto START_RECORD (save_field rd))
  | Chr c =>
      if is_newline c then OK (goto EAT_CRNL (save_field rd))
      else if Ascii.eqb c dquote then OK (goto IN_QUOTED_FIELD rd)
      else if Ascii.eqb c comma then OK (goto START_FIELD (save_field rd))
      else rd' <- add_char_within limit c rd ;; OK (goto IN_FIELD rd')
  end.

Definition process_char_within (limit : Z) (rd : reader) (x : symbol) : result reader :=
  match rd_state rd with
  | START_RECORD =>
      match x with
      | EOL => OK rd
      | Chr c => if is_newline c then OK (goto EAT_CRNL rd) else start_field_within limit rd x
      end
  | START_FIELD => start_field_within limit rd x
  | IN_FIELD =>
      match x with
      | EOL => OK (goto START_RECORD (save_field rd))
      | Chr c =>
          if is_newline c then OK (goto EAT_CRNL (save_field rd))
          else if Ascii.eqb c comma then OK (goto START_FIELD (save_field rd))
          else add_char_within limit c rd
      end
  | IN_QUOTED_FIELD =>
      match x with
      | EOL => OK rd
      | Chr c =>
          if Ascii.eqb c dquote then OK (goto QUOTE_IN_QUOTED_FIELD rd)
          else add_char_within limit c rd
      end
  | QUOTE_IN_QUOTED_FIELD =>
      match x with
      | EOL => OK (goto START_RECORD (save_field rd))
      | Chr c =>
          if Ascii.eqb c dquote then
            rd' <- add_char_within limit c rd ;; OK (goto IN_QUOTED_FIELD rd')
          else if Ascii.eqb c comma then OK (goto START_FIELD (save_field rd))
          else if is_newline c then OK (goto EAT_CRNL (save_field rd))
          else rd' <- add_char_within limit c rd ;; OK (goto IN_FIELD rd')
      end
  | EAT_CRNL =>
      match x with
      | EOL => OK (goto START_RECORD rd)
      | Chr c => if is_newline c then OK rd else Raise CsvError
      end
  end.

(** [list(csv.reader(file))] with fields of at most [limit] characters. *)
Fixpoint read_rows_within (limit : Z) (rd : reader) (input : text)
  : result (list (list text)) :=
  match input with
  | [] => OK (at_end_of_input rd)
  | c :: rest =>
      rd1 <- process_char_within limit rd (Chr c) ;;
      if line_ends c rest then
        rd2 <- process_char_within limit rd1 EOL ;;
        match rd_state rd2 with
        | START_RECORD =>
            rows <- read_rows_within limit new_reader rest ;; OK (rd_fields rd2 :: rows)
        | _ => read_rows_within limit rd2 rest
        end
      else read_rows_within limit rd1 rest
  end.

(** [list(csv.reader(file))] as the library is set up by default. *)
Definition csv_reader_default (input : text) : result (list (list text)) :=
  read_rows_within field_size_limit new_reader input.

(** ** The exporter: [save_papers_to_file] *)

(** [os.path.join(folder_path, filename)] on a POSIX system. *)
Definition os_path_join (folder_path filename : string) : string :=
  match filename with
  | String "/" _ => filename
  | _ =>
      match folder_path with
      | EmptyString => filename
      | _ =>
          match String.get (String.length folder_path - 1) folder_path with
          | Some "/"%char => folder_path ++ filename
          | _ => folder_path ++ "/" ++ filename
          end
      end
  end.

(** The file system as the exporter sees it: which of its calls fail. *)
Record file_system : Type := {
  makedirs_fails : bool;
  open_fails : bool;
  write_fails : nat -> bool;
  close_fails : bool
}.

(** What the call leaves behind: the folders it made sure exist and the
    files it opened for writing, with their contents. *)
Record disk : Type := {
  folders : list string;
  files : list (string * text)
}.

(** The message printed at the end of the [try] block or by its handler. *)
Inductive report : Type :=
| Saved (count : Z) (file_path : string)
| Failed (e : exn).

Definition headers : list string :=
  ["Title"; "Authors"; "Published"; "Summary"; "PDF URL"; "References"].

(** The cells of the row written for one record, in the order of [headers]. *)
Definition paper_row (p : paper) : result (list text) :=
  joined <- py_join ", " (authors p) ;;
  OK (map list_ascii_of_string
          [csv_text (title p); joined; csv_text (published p);
           csv_text (summary p); csv_text (pdf_url p); references p]).

(** The loop [for paper in papers: writer.writerow(...)] (lines 121-129);
    [call] numbers the writes to the file, [written] is the text stored so
    far. *)
Fixpoint write_rows (fs : file_system) (call : nat) (papers : list paper) (written : text)
  : text * option exn :=
  match papers with
  | [] => (written, None)
  | p :: rest =>
      match paper_row p with
      | Raise e => (written, Some e)
      | OK cells =>
          if write_fails fs call then (written, Some OSError)
          else write_rows fs (S call) rest (written ++ render_row cells)%list
      end
  end.

(** The [with open(...)] block (lines 118-129). *)
Definition write_file (fs : file_system) (papers : list paper) : text * option exn :=
  if write_fails fs 0%nat then ([], Some OSError)
  else
    match write_rows fs 1%nat papers (render_row (map list_ascii_of_string headers)) with
    | (written, Some e) => (written, Some e)
    | (written, None) => if close_fails fs then (written, Some OSError) else (written, None)
    end.

(** Lines 102-134: [os.makedirs] runs before the [try] block, opening and
    writing inside it. *)
Definition save_papers_to_file (fs : file_system) (papers : list paper)
    (folder_path filename : string) : result (disk * report) :=
  if makedirs_fails fs then Raise OSError
  else
    let file_path := os_path_join folder_path filename in
    if open_fails fs then
      OK ({| folders := [folder_path]; files := [] |}, Failed OSError)
    else
      match write_file fs papers with
      | (written, Some e) =>
          OK ({| folders := [folder_path]; files := [(file_path, written)] |}, Failed e)
      | (written, None) =>
          OK ({| folders := [folder_path]; files := [(file_path, written)] |},
              Saved (len papers) file_path)
      end.

(** A file system on which every call succeeds. *)
Definition reliable : file_system :=
  {| makedirs_fails := false;
     open_fails := false;
     write_fails := fun _ => false;
     close_fails := false |}.

(** ** Predicates used in the statements *)

(** The results a page carries: the list under ["data"] of a JSON object
    that came with a status [raise_for_status] accepts. *)
Definition page_results (resp : response) : option (list value) :=
  match resp with
  | Response status_code (Some (VDict d)) =>
      match raise_for_status status_code, dict_lookup "data" d with
      | OK _, Some (VList l) => Some l
      | _, _ => None
      end
  | _ => None
  end.

(** A page request that fails: no response, a status that
    [raise_for_status] rejects, or a body that is not JSON. *)
Definition request_failed (resp : response) : bool :=
  match resp with
  | NoResponse => true
  | Response status_code body =>
      match raise_for_status status_code, body with
      | OK _, Some _ => false
      | _, _ => true
      end
  end.

(** A status outside 200..299. *)
Definition non_2xx (status_code : Z) : bool :=
  negb ((200 <=? status_code) && (status_code <? 300)).

Definition semicolon : ascii := ";"%char.

(** An object whose ["authors"], when there, is a list of objects that each
    carry a string ["name"]. *)
Definition named_author (author : value) : bool :=
  match author with
  | VDict a => match dict_lookup "name" a with Some (VStr _) => true | _ => false end
  | _ => false
  end.

Definition well_formed_authors (d : list (string * value)) : bool :=
  match dict_lookup "authors" d with
  | None => true
  | Some (VList l) => forallb named_author l
  | Some _ => false
  end.

Definition well_formed_reference (ref : value) : bool :=
  match ref with
  | VDict d => well_formed_authors d
  | _ => false
  end.

(** A well-formed entry: an object with well-formed authors whose
    ["references"], when there, is a list of objects with well-formed
    authors. *)
Definition well_formed_entry (entry : value) : bool :=
  match entry with
  | VDict d =>
      well_formed_authors d &&
      match dict_lookup "references" d with
      | None => true
      | Some (VList refs) => forallb well_formed_reference refs
      | Some _ => false
      end
  | _ => false
  end.

Definition is_string (v : value) : bool :=
  match v with
  | VStr _ => true
  | _ => false
  end.

(** The cells a record is expected to be read back as: the text of each
    field, the author names joined by a comma and a space. *)
Definition expected_row (p : paper) : list text :=
  map list_ascii_of_string
      [csv_text (title p); String.concat ", " (map py_str (authors p));
       csv_text (published p); csv_text (summary p); csv_text (pdf_url p);
       references p].

Definition header_row : list text := map list_ascii_of_string headers.

(** A file system none of whose calls fails. *)
Definition succeeds (fs : file_system) : Prop :=
  makedirs_fails fs = false /\ open_fails fs = false /\
  (forall call, write_fails fs call = false) /\ close_fails fs = false.

(** The number of lines of a text, counted as iterating over the file
    counts them. *)
Fixpoint count_lines (input : text) : nat :=
  match input with
  | [] => 0%nat
  | c :: rest => ((if line_ends c rest then 1 else 0) + count_lines rest)%nat
  end.

Definition single_line (cell : text) : bool := negb (existsb is_newline cell).



(** ** Reader states used in the round-trip proof *)

Definition push (xs : text) (rd : reader) : reader :=
  {| rd_state := rd_state rd; rd_field := (rd_field rd ++ xs)%list; rd_fields := rd_fields rd |}.

Definition next_field (rd : reader) (cell : text) : reader :=
  {| rd_state := START_FIELD; rd_field := []; rd_fields := (rd_fields rd ++ [cell])%list |}.

Definition at_start (rd : reader) : Prop :=
  rd_field rd = [] /\ (rd_state rd = START_RECORD \/ rd_state rd = START_FIELD).

(** The reader taken through a whole rendered field, up to the character
    that follows it. *)
Definition after_field (rd : reader) (cell : text) : reader :=
  if needs_quotes cell then goto QUOTE_IN_QUOTED_FIELD (push cell rd)
  else match cell with
       | [] => rd
       | _ => goto IN_FIELD (push cell rd)
       end.

(** ** The script and the second formatter *)

(** [format_reference(ref)] (lines 161-167): the citation without its
    index; the authors are joined first, then title and year are read. *)
Definition format_reference (ref : value) : result string :=
  names <- author_names ref ;;
  ref_authors <- py_join ", " names ;;
  ref_title <- py_get ref "title" (VStr "No title") ;;
  ref_year <- py_get ref "year" (VStr "Unknown") ;;
  OK (ref_authors ++ ", " ++ str1 dquote ++ py_str ref_title ++ "," ++ str1 dquote
        ++ " " ++ py_str ref_year ++ ".").

(** The line printed for one record by the loop of lines 149-150; the
    authors are joined outside any [try]. *)
Definition paper_line (p : paper) : result string :=
  joined <- py_join ", " (authors p) ;;
  OK ("Title: " ++ py_str (title p) ++ ", Authors: " ++ joined
        ++ ", Published: " ++ py_str (published p)
        ++ ", PDF URL: " ++ py_str (pdf_url p)
        ++ ", References: " ++ references p).

(** The [__main__] block (lines 137-155), taken on its own: fetch with
    [max_papers=1000] and [batch_size=10], print the records, save them.
    The result holds the lines this block prints and what the export leaves
    and reports; writing a line to the standard output is taken to
    succeed. *)
Definition main (api : server) (fs : file_system) : result (list string * (disk * report)) :=
  papers <- search_semantic_scholar api "machine learning" 1000 10 ;;
  printed <- match papers with
             | [] => OK ["No papers retrieved."]
             | _ => mapM paper_line papers
             end ;;
  saved <- save_papers_to_file fs papers "output_papers" "semantic_scholar_papers.csv" ;;
  OK ("Starting paper retrieval..."
        :: String.append "Total papers retrieved: " (str_of_int (len papers))
        :: printed, saved).

(** A record whose author names are all strings, so that they can be
    joined. *)
Definition printable_record (p : paper) : bool := forallb is_string (authors p).

(** ** Scenarios *)

(** An entry with no field at all, and the record built from it. *)
Definition bare_entry : value := VDict [].

Definition bare_paper : paper :=
  {| title := VStr "No title";
     summary := VStr "No abstract available";
     authors := [];
     published := VStr "Unknown";
     pdf_url := VStr "No URL available";
     references := "No references available" |}.

(** A successful page carrying the given entries. *)
Definition page_of (entries : list value) : response :=
  Response 200 (Some (VDict [("data", VList entries)])).

(** A server that sends two entries on the first call, whatever the limit,
    and one entry on every later call. *)
Definition over_delivering : server :=
  fun call _ =>
    match call with
    | O => page_of [bare_entry; bare_entry]
    | S _ => page_of [bare_entry]
    end.

(** A server that answers every call with status 300 (Multiple Choices,
    which [requests] does not follow) and a body of one entry. *)
Definition multiple_choices : server :=
  fun _ _ => Response 300 (Some (VDict [("data", VList [bare_entry])])).

(** A server that answers every call with status 500. *)
Definition failing : server := fun _ _ => Response 500 None.

(** A server with a single result. *)
Definition one_result : server := fun _ _ => page_of [bare_entry].

(** A server with one page of ten results. *)
Definition ten_results : server := fun _ _ => page_of (repeat bare_entry 10).

(** An entry whose abstract runs over two lines, and a server with one page
    of ten results, the first of which is that entry. *)
Definition two_line_entry : value :=
  VDict [("title", VStr "Trees"); ("abstract", VStr (String "a" (String lf "b")))].

Definition two_line_paper : paper :=
  {| title := VStr "Trees";
     summary := VStr (String "a" (String lf "b"));
     authors := [];
     published := VStr "Unknown";
     pdf_url := VStr "No URL available";
     references := "No references available" |}.

Definition ten_results_two_lines : server :=
  fun _ _ => page_of (two_line_entry :: repeat bare_entry 9).

Definition request_for (query : string) (offset limit : Z) : request :=
  {| q_query := query; q_offset := offset; q_limit := limit; q_fields := fields |}.

(** An entry whose abstract is an explicit null. *)
Definition null_abstract_entry : value := VDict [("abstract", VNone)].

(** An entry citing one work whose title holds a semicolon. *)
Definition semicolon_entry : value :=
  VDict [("references", VList [VDict [("title", VStr "Graphs; trees")]])].

(** A file system on which the folder is there but the file cannot be
    opened, and one on which the second write (the first data row) fails. *)
Definition locked_file : file_system :=
  {| makedirs_fails := false;
     open_fails := true;
     write_fails := fun _ => false;
     close_fails := false |}.

Definition full_disk : file_system :=
  {| makedirs_fails := false;
     open_fails := false;
     write_fails := fun call => Nat.eqb call 1;
     close_fails := false |}.

(** A record with two authors and an integer year, and a record whose
    title is null. *)
Definition sample_paper : paper :=
  {| title := VStr "Trees, graphs";
     summary := VStr "No abstract available";
     authors := [VStr "A. Author"; VStr "B. Author"];
     published := VInt 2020;
     pdf_url := VStr "https://example.org/p/1";
     references := "No references available" |}.

Definition untitled_paper : paper :=
  {| title := VNone;
     summary := VStr "No abstract available";
     authors := [VStr "A. Author"];
     published := VInt 2020;
     pdf_url := VStr "https://example.org/p/2";
     references := "No references available" |}.



(** A file system on which the folder cannot be created. *)
Definition read_only : file_system :=
  {| makedirs_fails := true;
     open_fails := false;
     write_fails := fun _ => false;
     close_fails := false |}.

(** A record with an author whose name is null, as built from an entry
    whose author object carries ["name": null]. *)
Definition unnamed_author_entry : value :=
  VDict [("title", VStr "Trees"); ("authors", VList [VDict [("name", VNone)]])].

Definition unnamed_author_paper : paper :=
  {| title := VStr "Trees";
     summary := VStr "No abstract available";
     authors := [VNone];
     published := VStr "Unknown";
     pdf_url := VStr "No URL available";
     references := "No references available" |}.


(** * Properties *)

(** ** Facts on strings and on the error monad *)

Lemma bind_ok {A B : Type} (r : result A) (k : A -> result B) (b : B) :
  bind r k = OK b -> exists a, r = OK a /\ k a = OK b.
Proof. destruct r as [a|e]; cbn; [eauto | discriminate]. Qed.

Lemma has_char_app c s1 s2 :
  has_char c (s1 ++ s2) = has_char c s1 || has_char c s2.
Proof.
  induction s1 as [|a s1 IH]; cbn; [reflexivity|].
  rewrite IH. apply orb_assoc.
Qed.

Lemma has_char_concat c sep names :
  has_char c sep = false ->
  forallb (fun name => negb (has_char c name)) names = true ->
  has_char c (String.concat sep names) = false.
Proof.
  intros Hsep. induction names as [|name rest IH]; cbn; [reflexivity|].
  intros H. apply andb_prop in H as [Hname Hrest]. apply negb_true_iff in Hname.
  destruct rest as [|name' rest']; [assumption|].
  rewrite !has_char_app, Hname, Hsep. cbn. apply IH. assumption.
Qed.

Lemma semicolon_free_uint d : has_char semicolon (NilEmpty.string_of_uint d) = false.
Proof. induction d; cbn; auto. Qed.

Lemma semicolon_free_int z : has_char semicolon (str_of_int z) = false.
Proof.
  unfold str_of_int, NilEmpty.string_of_int.
  destruct (Z.to_int z); cbn; apply semicolon_free_uint.
Qed.

(** The formatter adds no semicolon of its own. *)
Lemma semicolon_free_citation idx ref_authors ref_title ref_year :
  has_char semicolon ref_authors = false ->
  has_char semicolon (py_str ref_title) = false ->
  has_char semicolon (py_str ref_year) = false ->
  has_char semicolon (citation idx ref_authors ref_title ref_year) = false.
Proof.
  intros Ha Ht Hy. unfold citation.
  rewrite !has_char_app, Ha, Ht, Hy, semicolon_free_int. reflexivity.
Qed.

Lemma mapM_as_str names : mapM as_str (map VStr names) = OK names.
Proof. induction names as [|n names IH]; cbn; [reflexivity|]. rewrite IH. reflexivity. Qed.

Lemma mapM_as_str_inv items : forall ss,
  mapM as_str items = OK ss -> items = map VStr ss.
Proof.
  induction items as [|item items IH]; cbn; intros ss H.
  - inversion H. reflexivity.
  - apply bind_ok in H as (s & Hs & H). apply bind_ok in H as (ss' & Hss & H).
    inversion H; subst. destruct item; try discriminate. inversion Hs; subst.
    cbn. f_equal. apply IH. assumption.
Qed.

Lemma py_join_strings sep names :
  py_join sep (map VStr names) = OK (String.concat sep names).
Proof. unfold py_join. rewrite mapM_as_str. reflexivity. Qed.

Lemma py_join_inv sep items s :
  py_join sep items = OK s ->
  exists names, items = map VStr names /\ s = String.concat sep names.
Proof.
  unfold py_join. intros H. apply bind_ok in H as (ss & Hss & H).
  inversion H; subst. exists ss. split; [apply mapM_as_str_inv; assumption | reflexivity].
Qed.

(** ** Building a record *)

Lemma formatted_reference_inv idx ref s :
  formatted_reference idx ref = OK s ->
  exists ref_title names ref_year,
    py_get ref "title" (VStr "No title") = OK ref_title /\
    author_names ref = OK (map VStr names) /\
    py_get ref "year" (VStr "Unknown") = OK ref_year /\
    s = citation idx (String.concat ", " names) ref_title ref_year.
Proof.
  unfold formatted_reference. intros H.
  apply bind_ok in H as (ref_title & Ht & H).
  apply bind_ok in H as (items & Hitems & H).
  apply bind_ok in H as (ref_authors & Hjoin & H).
  apply bind_ok in H as (ref_year & Hy & H).
  apply py_join_inv in Hjoin as (names & -> & ->).
  inversion H; subst. exists ref_title, names, ref_year. auto.
Qed.

Lemma reference_list_inv refs : forall idx formatted,
  reference_list idx refs = OK formatted ->
  List.length formatted = List.length refs /\
  forall k ref, nth_error refs k = Some ref ->
    exists s, nth_error formatted k = Some s /\
              formatted_reference (idx + Z.of_nat k) ref = OK s.
Proof.
  induction refs as [|ref0 refs IH]; cbn [reference_list]; intros idx formatted H.
  - inversion H; subst. split; [reflexivity|]. intros k ref Hk. destruct k; discriminate.
  - apply bind_ok in H as (s0 & Hs0 & H). apply bind_ok in H as (ss & Hss & H).
    inversion H; subst. destruct (IH _ _ Hss) as [Hlen Hnth].
    split; [cbn; congruence|]. intros k ref Hk. destruct k as [|k].
    + cbn in Hk. inversion Hk; subst. exists s0. rewrite Z.add_0_r. auto.
    + cbn in Hk. destruct (Hnth _ _ Hk) as (s & Hs & Hfmt). exists s. split; [assumption|].
      rewrite <- Hfmt. f_equal. lia.
Qed.

Lemma make_paper_inv entry p :
  make_paper entry = OK p ->
  exists d refs formatted,
    entry = VDict d /\
    py_get entry "title" (VStr "No title") = OK (title p) /\
    author_names entry = OK (authors p) /\
    py_get entry "abstract" (VStr "No abstract available") = OK (summary p) /\
    py_get entry "year" (VStr "Unknown") = OK (published p) /\
    py_get entry "url" (VStr "No URL available") = OK (pdf_url p) /\
    (refs_field <- py_get entry "references" (VList []) ;; py_iter refs_field) = OK refs /\
    reference_list 1 refs = OK formatted /\
    references p = match formatted with
                   | [] => no_references
                   | _ => String.concat " " formatted
                   end.
Proof.
  unfold make_paper. intros H.
  apply bind_ok in H as (title_ & Ht & H).
  apply bind_ok in H as (authors_ & Ha & H).
  apply bind_ok in H as (abstract & Hs & H).
  apply bind_ok in H as (year & Hy & H).
  apply bind_ok in H as (url & Hu & H).
  apply bind_ok in H as (refs_field & Hrf & H).
  apply bind_ok in H as (refs & Hrefs & H).
  apply bind_ok in H as (formatted & Hfmt & H).
  inversion H; subst; cbn.
  destruct entry as [| | | | |d]; try discriminate.
  exists d, refs, formatted. rewrite Hrf. cbn [bind]. auto 10.
Qed.

(** C4, as amended: for an entry whose reference list has N > 0 items, the
    [references] field is the N citations [[1]] to [[N]], in the order of
    the list, each made of the index, the author names joined by commas, the
    quoted title and the year, joined by single spaces; a citation holds a
    semicolon only where an author name, the title or the year holds one.
    With an empty list the field is the sentinel. *)
Theorem references_field d p refs :
  make_paper (VDict d) = OK p ->
  py_get (VDict d) "references" (VList []) = OK (VList refs) ->
  (refs = [] -> references p = "No references available") /\
  (refs <> [] ->
   exists fragments,
     List.length fragments = List.length refs /\
     references p = String.concat " " fragments /\
     forall k ref, nth_error refs k = Some ref ->
       exists ref_title names ref_year,
         py_get ref "title" (VStr "No title") = OK ref_title /\
         author_names ref = OK (map VStr names) /\
         py_get ref "year" (VStr "Unknown") = OK ref_year /\
         nth_error fragments k =
           Some (citation (Z.of_nat k + 1) (String.concat ", " names) ref_title ref_year) /\
         (forallb (fun name => negb (has_char semicolon name)) names = true ->
          has_char semicolon (py_str ref_title) = false ->
          has_char semicolon (py_str ref_year) = false ->
          has_char semicolon
            (citation (Z.of_nat k + 1) (String.concat ", " names) ref_title ref_year) = false)).
Proof.
  intros Hp Hrefs.
  apply make_paper_inv in Hp
    as (d' & refs' & formatted & _ & _ & _ & _ & _ & _ & Hiter & Hlist & Hfield).
  rewrite Hrefs in Hiter. cbn in Hiter. inversion Hiter; subst refs'.
  destruct (reference_list_inv _ _ _ Hlist) as [Hlen Hnth].
  split.
  - intros ->. destruct formatted; [assumption | discriminate].
  - intros Hne. exists formatted. split; [assumption|]. split.
    + destruct formatted; [|assumption]. destruct refs; [congruence | discriminate].
    + intros k ref Hk. destruct (Hnth _ _ Hk) as (s & Hs & Hfmt).
      apply formatted_reference_inv in Hfmt as (ref_title & names & ref_year & Ht & Ha & Hy & ->).
      exists ref_title, names, ref_year. rewrite Z.add_comm.
      repeat split; try assumption.
      intros Hnames Htitle Hyear. apply semicolon_free_citation; try assumption.
      apply has_char_concat; [reflexivity | assumption].
Qed.

(** An entry without [abstract], [url] or [year] gets the placeholder in
    [summary], [pdf_url] or [published]; a field the entry does carry is
    copied as it is, a null included. *)
Theorem missing_fields d p :
  make_paper (VDict d) = OK p ->
  (dict_lookup "abstract" d = None -> summary p = VStr "No abstract available") /\
  (dict_lookup "url" d = None -> pdf_url p = VStr "No URL available") /\
  (dict_lookup "year" d = None -> published p = VStr "Unknown") /\
  (forall v, dict_lookup "abstract" d = Some v -> summary p = v) /\
  (forall v, dict_lookup "url" d = Some v -> pdf_url p = v) /\
  (forall v, dict_lookup "year" d = Some v -> published p = v).
Proof.
  intros Hp.
  apply make_paper_inv in Hp as (d' & refs & formatted & _ & _ & _ & Hs & Hy & Hu & _).
  cbn [py_get] in Hs, Hy, Hu. inversion Hs as [Hs']. inversion Hy as [Hy']. inversion Hu as [Hu'].
  repeat split; intros; repeat match goal with H : dict_lookup _ _ = _ |- _ => rewrite H end;
    reflexivity.
Qed.

(** ** Well-formed entries *)

Lemma named_authors_names l :
  forallb named_author l = true ->
  exists names, mapM (fun author => py_getitem author "name") l = OK (map VStr names).
Proof.
  induction l as [|author l IH]; cbn [forallb mapM]; intros H.
  - exists []. reflexivity.
  - apply andb_prop in H as [Ha Hl]. destruct (IH Hl) as (names & Hnames).
    destruct author as [| | | | |a]; try discriminate. cbn in Ha. cbn [py_getitem].
    destruct (dict_lookup "name" a) as [[| | |name| |]|]; try discriminate.
    exists (name :: names). cbn [bind]. rewrite Hnames. reflexivity.
Qed.

Lemma well_formed_author_names d :
  well_formed_authors d = true ->
  exists names, author_names (VDict d) = OK (map VStr names).
Proof.
  unfold well_formed_authors, author_names. cbn [py_get bind]. intros H.
  destruct (dict_lookup "authors" d) as [[| | | |l|]|]; try discriminate.
  - cbn [py_iter bind]. apply named_authors_names. assumption.
  - exists []. reflexivity.
Qed.

Lemma well_formed_reference_list refs : forall idx,
  forallb well_formed_reference refs = true ->
  exists formatted, reference_list idx refs = OK formatted.
Proof.
  induction refs as [|ref refs IH]; cbn [forallb reference_list]; intros idx H.
  - eauto.
  - apply andb_prop in H as [Href Hrefs]. destruct (IH (idx + 1) Hrefs) as (formatted & Hf).
    destruct ref as [| | | | |d]; try discriminate. cbn in Href.
    destruct (well_formed_author_names d Href) as (names & Hnames).
    unfold formatted_reference. cbn [py_get bind]. rewrite Hnames. cbn [bind].
    rewrite py_join_strings. cbn [bind]. rewrite Hf. cbn [bind]. eauto.
Qed.

(** A well-formed entry gives a record, and its authors are strings. *)
Lemma well_formed_make_paper entry :
  well_formed_entry entry = true ->
  exists p, make_paper entry = OK p /\ forallb is_string (authors p) = true.
Proof.
  destruct entry as [| | | | |d]; try discriminate. cbn [well_formed_entry]. intros H.
  apply andb_prop in H as [Ha Hr].
  destruct (well_formed_author_names d Ha) as (names & Hnames).
  assert (Hrefs : exists formatted,
             (refs_field <- py_get (VDict d) "references" (VList []) ;;
              refs <- py_iter refs_field ;; reference_list 1 refs) = OK formatted).
  { cbn [py_get bind]. destruct (dict_lookup "references" d) as [[| | | |refs|]|]; try discriminate.
    - cbn [py_iter bind]. apply well_formed_reference_list. assumption.
    - exists []. reflexivity. }
  destruct Hrefs as (formatted & Hrefs).
  apply bind_ok in Hrefs as (refs_field & Hrf & Hrefs).
  apply bind_ok in Hrefs as (refs & Hiter & Hlist).
  unfold make_paper. rewrite Hnames. cbn [py_get bind] in *. inversion Hrf as [Hrf'].
  rewrite Hrf', Hiter. cbn [bind]. rewrite Hlist. cbn [bind].
  eexists. split; [reflexivity|]. cbn [authors].
  clear. induction names; cbn; auto.
Qed.

(** ** Pagination *)

Section Pagination.

Variable api : server.
Variable query : string.
Variables max_papers batch_size : Z.


(** Every request of a run is built from the records held when it is sent. *)
Lemma pages_requests offsets : forall call papers final tr,
  pages api query max_papers batch_size call offsets papers = (final, tr) ->
  forall before req, In (before, req) tr ->
  exists offset, In offset offsets /\ req = make_request query max_papers batch_size offset before.
Proof.
  induction offsets as [|offset rest IH]; intros call papers final tr Hrun before req Hin.
  - cbn in Hrun. inversion Hrun; subst. contradiction.
  - cbn [pages] in Hrun.
    destruct (process_page max_papers batch_size papers (api call (make_request query max_papers batch_size offset papers))) as [papers' [|why]].
    + destruct (pages api query max_papers batch_size (S call) rest papers') as [final' tr'] eqn:Hrest.
      inversion Hrun; subst. destruct Hin as [Hhd | Htl].
      * inversion Hhd; subst. exists offset. split; [left|]; reflexivity.
      * destruct (IH _ _ _ _ Hrest _ _ Htl) as (o & Ho & Hreq).
        exists o. split; [right|]; assumption.
    + inversion Hrun; subst. destruct Hin as [Hhd | []].
      inversion Hhd; subst. exists offset. split; [left|]; reflexivity.
Qed.

(** The page that leaves the loop is the last one of the trace, and the
    records it leaves are the ones returned. *)
Lemma pages_stop offsets : forall call papers final tr k before req papers' why,
  pages api query max_papers batch_size call offsets papers = (final, tr) ->
  nth_error tr k = Some (before, req) ->
  process_page max_papers batch_size before (api (call + k)%nat req) = (papers', Break why) ->
  List.length tr = S k /\ final = papers'.
Proof.
  induction offsets as [|offset rest IH];
    intros call papers final tr k before req papers' why Hrun Hk Hpage.
  - cbn in Hrun. inversion Hrun; subst. destruct k; discriminate.
  - cbn [pages] in Hrun.
    destruct (process_page max_papers batch_size papers (api call (make_request query max_papers batch_size offset papers))) as [after [|why0]] eqn:Hfirst.
    + destruct (pages api query max_papers batch_size (S call) rest after) as [final' tr'] eqn:Hrest.
      inversion Hrun; subst. destruct k as [|k].
      * cbn in Hk. inversion Hk; subst. rewrite Nat.add_0_r in Hpage. congruence.
      * cbn in Hk. rewrite Nat.add_succ_r in Hpage.
        destruct (IH _ _ _ _ _ _ _ _ _ Hrest Hk Hpage) as [Hlen Hfinal].
        split; [cbn; congruence | assumption].
    + inversion Hrun; subst. destruct k as [|k].
      * cbn in Hk. inversion Hk; subst. rewrite Nat.add_0_r in Hpage.
        split; [reflexivity | congruence].
      * cbn in Hk. destruct k; discriminate.
Qed.

(** A failed request leaves the loop with the records untouched. *)
Lemma failed_request_breaks papers resp :
  request_failed resp = true ->
  exists e, process_page max_papers batch_size papers resp = (papers, Break (Caught e)).
Proof.
  unfold request_failed, process_page, page_entries. intros Hfail.
  destruct resp as [|status body].
  - exists RequestException. reflexivity.
  - destruct (raise_for_status status) as [[]|e] eqn:Hstatus.
    + destruct body as [data|]; [discriminate|]. exists ValueError. reflexivity.
    + exists e. reflexivity.
Qed.

(** What the [try] block finds on a page that carries results. *)
Lemma page_entries_results resp results :
  page_results resp = Some results ->
  page_entries resp =
  OK (match results with
      | [] => None
      | _ => Some (results, Z.of_nat (List.length results))
      end).
Proof.
  unfold page_results, page_entries. intros Hres.
  destruct resp as [|status [[| | | | |d]|]]; try discriminate.
  destruct (raise_for_status status) as [[]|e]; [|discriminate].
  destruct (dict_lookup "data" d) as [[| | | |l|]|] eqn:Hdata; try discriminate.
  inversion Hres; subst l. cbn [bind response_json py_in]. rewrite Hdata.
  cbn [bind py_getitem]. rewrite Hdata. destruct results; reflexivity.
Qed.

(** A page with fewer results than [batch_size] leaves the loop. *)
Lemma short_page_breaks papers resp results :
  page_results resp = Some results ->
  Z.of_nat (List.length results) < batch_size ->
  exists papers' why, process_page max_papers batch_size papers resp = (papers', Break why).
Proof.
  intros Hres Hshort. unfold process_page. rewrite (page_entries_results _ _ Hres).
  destruct results as [|entry rest]; [eauto|].
  destruct (add_entries max_papers (entry :: rest) papers) as [papers' [e|]]; [eauto|].
  apply Z.ltb_lt in Hshort. rewrite Hshort. eauto.
Qed.

Lemma search_run_total :
  batch_size <> 0 -> exists final tr, search_run api query max_papers batch_size = OK (final, tr).
Proof.
  intros Hb. unfold search_run, py_range. apply Z.eqb_neq in Hb. rewrite Hb. cbn [bind].
  match goal with |- context [pages api query max_papers batch_size ?c ?o ?p] => destruct (pages api query max_papers batch_size c o p) as [final tr] end.
  eauto.
Qed.

Lemma search_run_inv final tr :
  search_run api query max_papers batch_size = OK (final, tr) ->
  exists offsets, py_range 0 max_papers batch_size = OK offsets /\
                  pages api query max_papers batch_size 0%nat offsets [] = (final, tr).
Proof.
  unfold search_run. destruct (py_range 0 max_papers batch_size) as [offsets|e]; [|discriminate].
  cbn [bind]. intros H. inversion H. eauto.
Qed.

(** The first request is sent with the records the loop starts from; with
    no request at all these are what is returned. *)
Lemma first_snapshot offsets call papers final tr :
  pages api query max_papers batch_size call offsets papers = (final, tr) ->
  match tr with
  | [] => final = papers
  | (before, _) :: _ => before = papers
  end.
Proof.
  destruct offsets as [|offset rest]; cbn [pages]; intros Hrun.
  - inversion Hrun. reflexivity.
  - destruct (process_page max_papers batch_size papers _) as [after [|why]].
    + destruct (pages api query max_papers batch_size (S call) rest after).
      inversion Hrun. reflexivity.
    + inversion Hrun. reflexivity.
Qed.

(** Each later request is sent with the records the page before it left. *)
Lemma next_snapshot offsets : forall call papers final tr k before req after req',
  pages api query max_papers batch_size call offsets papers = (final, tr) ->
  nth_error tr k = Some (before, req) ->
  nth_error tr (S k) = Some (after, req') ->
  process_page max_papers batch_size before (api (call + k)%nat req) = (after, Continue).
Proof.
  induction offsets as [|offset rest IH];
    intros call papers final tr k before req after req' Hrun Hk Hnext.
  - cbn in Hrun. inversion Hrun; subst. destruct k; discriminate.
  - cbn [pages] in Hrun.
    destruct (process_page max_papers batch_size papers _) as [papers' [|why]] eqn:Hfirst.
    + destruct (pages api query max_papers batch_size (S call) rest papers') as [final' tr'] eqn:Hrest.
      inversion Hrun; subst. destruct k as [|k].
      * cbn in Hk, Hnext. inversion Hk; subst. rewrite Nat.add_0_r.
        pose proof (first_snapshot _ _ _ _ _ Hrest) as Hsnap.
        destruct tr' as [|[b r] tr']; [discriminate|]. cbn in Hnext. inversion Hnext; subst.
        assumption.
      * rewrite Nat.add_succ_r. change (S (call + k)) with (S call + k)%nat.
        apply (IH (S call) papers' final tr' k before req after req' Hrest); assumption.
    + inversion Hrun; subst. destruct k as [|[|k]]; discriminate.
Qed.

End Pagination.


(** C3: a page on which the API returns fewer results than [batch_size] is
    the last page requested. *)
Theorem short_page_is_last api query max_papers batch_size final tr k before req results :
  search_run api query max_papers batch_size = OK (final, tr) ->
  nth_error tr k = Some (before, req) ->
  page_results (api k req) = Some results ->
  Z.of_nat (List.length results) < batch_size ->
  List.length tr = S k.
Proof.
  intros Hrun Hk Hres Hshort. apply search_run_inv in Hrun as (offsets & _ & Hpages).
  destruct (short_page_breaks max_papers batch_size before _ _ Hres Hshort) as (papers' & why & Hpage).
  eapply pages_stop; eassumption.
Qed.

(** C2, as amended: a request that fails with a transport error, a status
    from 400 to 599 or a body that is not JSON is the last one; the call
    returns, without raising, the records of the earlier pages.  A first
    page answered with status 500 gives the empty list. *)
Theorem failed_request_ends_run api query max_papers batch_size :
  batch_size <> 0 ->
  exists final tr,
    search_run api query max_papers batch_size = OK (final, tr) /\
    search_semantic_scholar api query max_papers batch_size = OK final /\
    (forall k before req,
        nth_error tr k = Some (before, req) ->
        request_failed (api k req) = true ->
        List.length tr = S k /\ final = before) /\
    ((forall req, exists body, api 0%nat req = Response 500 body) -> final = []).
Proof.
  intros Hb. destruct (search_run_total api query max_papers batch_size Hb) as (final & tr & Hrun).
  exists final, tr. split; [assumption|]. split.
  { unfold search_semantic_scholar. rewrite Hrun. reflexivity. }
  apply search_run_inv in Hrun as (offsets & _ & Hpages).
  assert (Hstop : forall k before req,
             nth_error tr k = Some (before, req) ->
             request_failed (api k req) = true ->
             List.length tr = S k /\ final = before).
  { intros k before req Hk Hfail.
    destruct (failed_request_breaks max_papers batch_size before _ Hfail) as (e & Hpage).
    eapply pages_stop; eassumption. }
  split; [exact Hstop|].
  intros H500. pose proof (first_snapshot _ _ _ _ _ _ _ _ _ Hpages) as Hsnap.
  destruct tr as [|[before req] tr]; [assumption|]. subst before.
  destruct (H500 req) as (body & Hresp).
  apply (Hstop 0%nat [] req); [reflexivity|]. rewrite Hresp. reflexivity.
Qed.


(** ** The CSV writer and reader *)

Local Open Scope list_scope.

Lemma special_false c :
  special c = false ->
  Ascii.eqb c comma = false /\ Ascii.eqb c dquote = false /\ is_newline c = false.
Proof.
  unfold special, is_newline. intros H.
  repeat (apply orb_false_elim in H; destruct H as [H ?]).
  repeat split; try assumption. apply orb_false_intro; assumption.
Qed.

Lemma line_continues c rest :
  is_newline c = false -> rest <> [] -> line_ends c rest = false.
Proof.
  unfold is_newline. intros H Hrest. apply orb_false_elim in H as [Hlf Hcr].
  destruct rest as [|c' rest']; [congruence|].
  simpl. rewrite Hlf, Hcr. reflexivity.
Qed.

Lemma app_nonempty (xs tail : text) : tail <> [] -> xs ++ tail <> [].
Proof. intros H E. apply app_eq_nil in E as [_ E]. contradiction. Qed.

Ltac nonempty :=
  repeat apply app_nonempty; first [assumption | discriminate].

Ltac side := first [reflexivity | assumption | nonempty].

Lemma push_nil rd : push [] rd = rd.
Proof. destruct rd. unfold push. simpl. rewrite app_nil_r. reflexivity. Qed.

Lemma push_push xs ys rd : push ys (push xs rd) = push (xs ++ ys) rd.
Proof. unfold push. simpl. rewrite app_assoc. reflexivity. Qed.

Lemma add_char_push c rd : add_char c rd = push [c] rd.
Proof. reflexivity. Qed.

Lemma read_step rd c rest rd1 :
  process_char rd (Chr c) = OK rd1 -> line_ends c rest = false ->
  read_rows rd (c :: rest) = read_rows rd1 rest.
Proof. intros Hp Hl. cbn [read_rows]. rewrite Hp. cbn [bind]. rewrite Hl. reflexivity. Qed.

(** The line feed that ends a record written by the writer. *)
Lemma read_end_of_record rd rest :
  rd_state rd = EAT_CRNL ->
  read_rows rd (lf :: rest) =
  (rows <- read_rows new_reader rest ;; OK (rd_fields rd :: rows)).
Proof.
  intros Hst. cbn [read_rows]. unfold process_char at 1. rewrite Hst.
  change (is_newline lf) with true. cbn [bind].
  assert (Hle : line_ends lf rest = true) by (destruct rest; reflexivity).
  rewrite Hle. unfold process_char. rewrite Hst. cbn [bind]. reflexivity.
Qed.

(** Inside an unquoted field, plain characters are collected. *)
Lemma read_plain xs : forall rd tail,
  rd_state rd = IN_FIELD -> needs_quotes xs = false -> tail <> [] ->
  read_rows rd (xs ++ tail) = read_rows (push xs rd) tail.
Proof.
  induction xs as [|x xs IH]; intros rd tail Hst Hq Htail.
  - rewrite push_nil. reflexivity.
  - simpl in Hq. apply orb_false_elim in Hq as [Hx Hq].
    apply special_false in Hx as (Hc & Hd & Hn).
    cbn [app]. rewrite (read_step rd x _ (add_char x rd)).
    + rewrite IH by side. rewrite add_char_push, push_push. reflexivity.
    + unfold process_char. rewrite Hst, Hn, Hc. reflexivity.
    + apply line_continues; side.
Qed.

(** Inside a quoted field, a character other than the quote is collected,
    line breaks included. *)
Lemma read_quoted_char c rd tail :
  rd_state rd = IN_QUOTED_FIELD -> Ascii.eqb c dquote = false -> tail <> [] ->
  read_rows rd (c :: tail) = read_rows (add_char c rd) tail.
Proof.
  intros Hst Hc Htail. cbn [read_rows]. unfold process_char at 1. rewrite Hst, Hc. cbn [bind].
  destruct (line_ends c tail); [|reflexivity].
  unfold process_char. change (rd_state (add_char c rd)) with (rd_state rd).
  rewrite Hst. cbn [bind]. change (rd_state (add_char c rd)) with (rd_state rd).
  rewrite Hst. reflexivity.
Qed.

Lemma read_quoted_quote rd tail :
  rd_state rd = IN_QUOTED_FIELD -> tail <> [] ->
  read_rows rd (dquote :: dquote :: tail) = read_rows (add_char dquote rd) tail.
Proof.
  intros Hst Htail.
  rewrite (read_step rd dquote _ (goto QUOTE_IN_QUOTED_FIELD rd));
    [| unfold process_char; rewrite Hst; reflexivity | reflexivity].
  rewrite (read_step _ dquote _ (goto IN_QUOTED_FIELD (add_char dquote rd)));
    [| reflexivity | apply line_continues; side].
  destruct rd as [s f fs]. cbn in Hst. subst s. reflexivity.
Qed.

Lemma read_quoted xs : forall rd tail,
  rd_state rd = IN_QUOTED_FIELD -> tail <> [] ->
  read_rows rd (double_quotes xs ++ tail) = read_rows (push xs rd) tail.
Proof.
  induction xs as [|x xs IH]; intros rd tail Hst Htail.
  - rewrite push_nil. reflexivity.
  - cbn [double_quotes]. destruct (Ascii.eqb x dquote) eqn:Hx.
    + apply Ascii.eqb_eq in Hx. subst x. cbn [app].
      rewrite read_quoted_quote by side.
      rewrite IH by side. rewrite add_char_push, push_push. reflexivity.
    + cbn [app]. rewrite read_quoted_char by side.
      rewrite IH by side. rewrite add_char_push, push_push. reflexivity.
Qed.

Lemma read_field cell rd tail :
  at_start rd -> tail <> [] ->
  read_rows rd (render_field cell ++ tail) = read_rows (after_field rd cell) tail.
Proof.
  intros [Hf Hst] Htail. unfold render_field, after_field.
  destruct (needs_quotes cell) eqn:Hq.
  - cbn [app]. rewrite (read_step rd dquote _ (goto IN_QUOTED_FIELD rd));
      [| unfold process_char; destruct Hst as [-> | ->]; reflexivity
       | apply line_continues; side].
    rewrite <- app_assoc. rewrite read_quoted by side.
    cbn [app]. rewrite (read_step _ dquote _ (goto QUOTE_IN_QUOTED_FIELD (push cell rd)));
      [reflexivity | reflexivity | apply line_continues; side].
  - destruct cell as [|x xs]; [reflexivity|].
    simpl in Hq. apply orb_false_elim in Hq as [Hx Hq].
    apply special_false in Hx as (Hc & Hd & Hn).
    cbn [app]. rewrite (read_step rd x _ (goto IN_FIELD (add_char x rd)));
      [| unfold process_char, start_field; destruct Hst as [-> | ->]; rewrite Hn, ?Hd, ?Hc; reflexivity
       | apply line_continues; side].
    rewrite read_plain by side. rewrite add_char_push.
    unfold push, goto. cbn. rewrite <- app_assoc. reflexivity.
Qed.

(** After a field, a comma stores it and starts the next one. *)
Lemma after_field_comma rd cell :
  at_start rd ->
  process_char (after_field rd cell) (Chr comma) = OK (next_field rd cell).
Proof.
  intros [Hf Hst]. unfold after_field, next_field.
  destruct (needs_quotes cell); [|destruct cell].
  - unfold process_char, goto, save_field, push. cbn. rewrite Hf. reflexivity.
  - unfold process_char, start_field, goto, save_field.
    destruct Hst as [-> | ->]; cbn; rewrite Hf; reflexivity.
  - unfold process_char, goto, save_field, push. cbn. rewrite Hf. reflexivity.
Qed.

(** After a field, a carriage return stores it and ends the record, unless
    nothing at all was read since the record started. *)
Lemma after_field_cr rd cell :
  at_start rd -> rd_state rd = START_FIELD \/ cell <> [] ->
  process_char (after_field rd cell) (Chr cr) =
  OK (goto EAT_CRNL (next_field rd cell)).
Proof.
  intros [Hf Hst] Hne. unfold after_field, next_field.
  destruct (needs_quotes cell) eqn:Hq; [|destruct cell].
  - unfold process_char, goto, save_field, push. cbn. rewrite Hf. reflexivity.
  - destruct Hne as [Hsf | Hne]; [|congruence].
    unfold process_char, start_field, goto, save_field. rewrite Hsf. cbn. rewrite Hf. reflexivity.
  - unfold process_char, goto, save_field, push. cbn. rewrite Hf. reflexivity.
Qed.

(** A rendered field followed by a comma is read back as that field. *)
Lemma read_field_comma cell rd rest :
  at_start rd -> rest <> [] ->
  read_rows rd (render_field cell ++ comma :: rest) = read_rows (next_field rd cell) rest.
Proof.
  intros Hrd Hrest. rewrite read_field by side.
  apply read_step; [apply after_field_comma; assumption | apply line_continues; side].
Qed.

(** A rendered field followed by the line terminator closes the record. *)
Lemma read_field_crlf cell rd rest :
  at_start rd -> rd_state rd = START_FIELD \/ cell <> [] ->
  read_rows rd (render_field cell ++ cr :: lf :: rest) =
  (rows <- read_rows new_reader rest ;; OK ((rd_fields rd ++ [cell]) :: rows)).
Proof.
  intros Hrd Hne. rewrite read_field by side.
  rewrite (read_step _ cr _ (goto EAT_CRNL (next_field rd cell)));
    [| apply after_field_cr; assumption | reflexivity].
  rewrite read_end_of_record by reflexivity. reflexivity.
Qed.

Lemma at_start_next rd cell : at_start (next_field rd cell).
Proof. split; [reflexivity | right; reflexivity]. Qed.

(** The fields of a row, joined by commas and ended by CR LF. *)
Lemma read_joined cells : forall cell rd rest,
  at_start rd -> rd_state rd = START_FIELD \/ cell <> [] \/ cells <> [] ->
  read_rows rd (join_fields (map render_field (cell :: cells)) ++ cr :: lf :: rest) =
  (rows <- read_rows new_reader rest ;; OK ((rd_fields rd ++ cell :: cells) :: rows)).
Proof.
  induction cells as [|cell' cells IH]; intros cell rd rest Hrd Hne.
  - cbn [map join_fields]. apply read_field_crlf; [assumption|].
    destruct Hne as [H | [H | H]]; auto; congruence.
  - change (join_fields (map render_field (cell :: cell' :: cells)))
      with (render_field cell ++ comma :: join_fields (map render_field (cell' :: cells))).
    rewrite <- app_assoc. cbn [app]. rewrite read_field_comma by side.
    rewrite IH; [| apply at_start_next | left; reflexivity].
    cbn [next_field rd_fields]. rewrite <- app_assoc. reflexivity.
Qed.

Lemma at_start_new : at_start new_reader.
Proof. split; [reflexivity | left; reflexivity]. Qed.

(** One written row is read back as itself. *)
Lemma read_rendered_row cells rest :
  read_rows new_reader (render_row cells ++ rest) =
  (rows <- read_rows new_reader rest ;; OK (cells :: rows)).
Proof.
  destruct cells as [|cell cells].
  - cbn [render_row map join_fields app].
    rewrite (read_step _ cr _ (goto EAT_CRNL new_reader)); [| reflexivity | reflexivity].
    rewrite read_end_of_record by reflexivity. reflexivity.
  - destruct cell as [|x xs]; [destruct cells as [|cell' cells]|].
    + cbn [render_row app].
      rewrite (read_step _ dquote _ (goto IN_QUOTED_FIELD new_reader)); [| reflexivity | reflexivity].
      rewrite (read_step _ dquote _ (goto QUOTE_IN_QUOTED_FIELD new_reader)); [| reflexivity | reflexivity].
      rewrite (read_step _ cr _ (goto EAT_CRNL (next_field new_reader []))); [| reflexivity | reflexivity].
      rewrite read_end_of_record by reflexivity. reflexivity.
    + unfold render_row. rewrite <- app_assoc. cbn [app].
      rewrite read_joined; [reflexivity | apply at_start_new | right; right; discriminate].
    + unfold render_row. rewrite <- app_assoc. cbn [app].
      rewrite read_joined; [reflexivity | apply at_start_new | right; left; discriminate].
Qed.

(** Reading what the writer wrote gives the rows back. *)
Lemma csv_round_trip rows :
  csv_reader (List.concat (map render_row rows)) = OK rows.
Proof.
  unfold csv_reader. induction rows as [|cells rows IH].
  - reflexivity.
  - cbn [map List.concat]. rewrite read_rendered_row, IH. reflexivity.
Qed.

(** ** Counting the lines of what the writer wrote *)

Lemma count_lines_plain xs : forall tail,
  existsb is_newline xs = false -> tail <> [] ->
  count_lines (xs ++ tail) = count_lines tail.
Proof.
  induction xs as [|x xs IH]; intros tail Hxs Htail; [reflexivity|].
  cbn [existsb] in Hxs. apply orb_false_elim in Hxs as [Hx Hxs].
  cbn [app count_lines]. rewrite line_continues by side.
  rewrite IH by assumption. reflexivity.
Qed.

Lemma count_lines_crlf rest : count_lines (cr :: lf :: rest) = S (count_lines rest).
Proof.
  cbn [count_lines]. change (line_ends cr (lf :: rest)) with false.
  assert (Hle : line_ends lf rest = true) by (destruct rest; reflexivity).
  rewrite Hle. reflexivity.
Qed.

Lemma existsb_newline_app (xs ys : text) :
  existsb is_newline (xs ++ ys) = existsb is_newline xs || existsb is_newline ys.
Proof. apply existsb_app. Qed.

Lemma double_quotes_single_line cell :
  existsb is_newline cell = false -> existsb is_newline (double_quotes cell) = false.
Proof.
  induction cell as [|c cell IH]; [reflexivity|]. cbn [existsb double_quotes]. intros H.
  apply orb_false_elim in H as [Hc Hcell].
  destruct (Ascii.eqb c dquote) eqn:Hq.
  - apply Ascii.eqb_eq in Hq. subst c. cbn [existsb]. rewrite IH by assumption. reflexivity.
  - cbn [existsb]. rewrite Hc, IH by assumption. reflexivity.
Qed.

Lemma render_field_single_line cell :
  single_line cell = true -> existsb is_newline (render_field cell) = false.
Proof.
  unfold single_line, render_field. intros H. apply negb_true_iff in H.
  destruct (needs_quotes cell); [|assumption].
  cbn [existsb]. rewrite existsb_newline_app, double_quotes_single_line by assumption.
  reflexivity.
Qed.

Lemma join_fields_single_line cells :
  forallb single_line cells = true ->
  existsb is_newline (join_fields (map render_field cells)) = false.
Proof.
  induction cells as [|cell cells IH]; [reflexivity|]. cbn [forallb]. intros H.
  apply andb_prop in H as [Hcell Hcells].
  destruct cells as [|cell' cells]; [apply render_field_single_line; assumption|].
  change (join_fields (map render_field (cell :: cell' :: cells)))
    with (render_field cell ++ comma :: join_fields (map render_field (cell' :: cells))).
  rewrite existsb_newline_app, render_field_single_line by assumption.
  cbn [existsb orb]. change (is_newline comma) with false. apply IH. assumption.
Qed.

(** A row whose cells hold no line break takes one line of the file. *)
Lemma count_lines_row cells rest :
  forallb single_line cells = true ->
  count_lines (render_row cells ++ rest) = S (count_lines rest).
Proof.
  intros H.
  assert (Hgen : count_lines ((join_fields (map render_field cells) ++ [cr; lf]) ++ rest)
                 = S (count_lines rest)).
  { rewrite <- app_assoc. cbn [app].
    rewrite count_lines_plain by (try discriminate; apply join_fields_single_line; assumption).
    apply count_lines_crlf. }
  destruct cells as [|[|x xs] [|cell' cells]]; exact Hgen.
Qed.

Lemma count_lines_rows rows :
  Forall (fun cells => forallb single_line cells = true) rows ->
  count_lines (List.concat (map render_row rows)) = List.length rows.
Proof.
  induction 1 as [|cells rows Hcells Hrows IH]; [reflexivity|].
  cbn [map List.concat List.length]. rewrite count_lines_row by assumption.
  rewrite IH. reflexivity.
Qed.

(** ** The reader with the field size limit *)

Section FieldLimit.

Variable limit : Z.
Hypothesis limit_nonneg : 0 <= limit.











Lemma after_field_length rd cell :
  rd_field rd = [] -> List.length (rd_field (after_field rd cell)) = List.length cell.
Proof.
  intros Hf. unfold after_field.
  destruct (needs_quotes cell); [|destruct cell].
  - cbn. rewrite Hf. reflexivity.
  - rewrite Hf. reflexivity.
  - cbn. rewrite Hf. reflexivity.
Qed.








End FieldLimit.

(** ** The exporter *)

Lemma strings_are_strs items :
  forallb is_string items = true -> items = map VStr (map py_str items).
Proof.
  induction items as [|item items IH]; [reflexivity|]. cbn [forallb]. intros H.
  apply andb_prop in H as [Hitem Hitems].
  destruct item; try discriminate. cbn. f_equal. apply IH. assumption.
Qed.

Lemma paper_row_expected p :
  forallb is_string (authors p) = true -> paper_row p = OK (expected_row p).
Proof.
  intros H. unfold paper_row. rewrite (strings_are_strs _ H) at 1.
  rewrite py_join_strings. reflexivity.
Qed.

(** With no failure, the loop appends one rendered row per record. *)
Lemma write_rows_succeeds fs papers : forall call written,
  (forall n, write_fails fs n = false) ->
  Forall (fun p => forallb is_string (authors p) = true) papers ->
  write_rows fs call papers written =
  (written ++ List.concat (map render_row (map expected_row papers)), None).
Proof.
  induction papers as [|p papers IH]; intros call written Hw Hall.
  - cbn. rewrite app_nil_r. reflexivity.
  - inversion Hall as [|? ? Hp Hrest]; subst. cbn [write_rows].
    rewrite paper_row_expected by assumption. rewrite Hw, IH by assumption.
    cbn [map List.concat]. rewrite <- app_assoc. reflexivity.
Qed.

(** A failing write inside the loop is caught. *)
Lemma write_rows_fails fs papers : forall call written n,
  (call <= n < call + List.length papers)%nat -> write_fails fs n = true ->
  exists left_on_disk e, write_rows fs call papers written = (left_on_disk, Some e).
Proof.
  induction papers as [|p papers IH]; intros call written n Hn Hfail.
  - cbn in Hn. lia.
  - cbn [write_rows]. destruct (paper_row p) as [cells|e]; [|eauto].
    destruct (write_fails fs call) eqn:Hcall; [eauto|].
    apply (IH (S call) _ n); [|assumption].
    cbn [List.length] in Hn. assert (n <> call) by congruence. lia.
Qed.

Lemma save_succeeds fs papers folder_path filename :
  succeeds fs ->
  Forall (fun p => forallb is_string (authors p) = true) papers ->
  save_papers_to_file fs papers folder_path filename =
  OK ({| folders := [folder_path];
         files := [(os_path_join folder_path filename,
                    List.concat (map render_row (header_row :: map expected_row papers)))] |},
      Saved (len papers) (os_path_join folder_path filename)).
Proof.
  intros (Hm & Ho & Hw & Hc) Hall. unfold save_papers_to_file, write_file.
  rewrite Hm, Ho, Hw, write_rows_succeeds, Hc by assumption. reflexivity.
Qed.

Lemma reliable_succeeds : succeeds reliable.
Proof. repeat split. Qed.







(** The text of a cell is the field itself for a string, its decimal
    digits for an integer, and empty for [None]. *)
Lemma csv_text_cases :
  (forall s, csv_text (VStr s) = s) /\
  (forall z, csv_text (VInt z) = str_of_int z) /\
  csv_text VNone = EmptyString.
Proof. repeat split. Qed.

(** C7, as amended: a failure to create the folder is raised to the
    caller; once the folder is there, the call returns without raising, and
    a failure to open the file, a failing write, a failing close or a
    record whose row cannot be built is reported as a failure. *)
Theorem export_failures_reported fs papers folder_path filename :
  (makedirs_fails fs = true ->
   save_papers_to_file fs papers folder_path filename = Raise OSError) /\
  (makedirs_fails fs = false ->
   exists left_on_disk r,
     save_papers_to_file fs papers folder_path filename = OK (left_on_disk, r) /\
     (open_fails fs = true -> r = Failed OSError) /\
     (forall call, (call <= List.length papers)%nat -> write_fails fs call = true ->
                   exists e, r = Failed e) /\
     (close_fails fs = true -> exists e, r = Failed e) /\
     (forall p e, In p papers -> paper_row p = Raise e -> exists e', r = Failed e')).
Proof.
  split.
  { intros Hm. unfold save_papers_to_file. rewrite Hm. reflexivity. }
  intros Hm. unfold save_papers_to_file. rewrite Hm.
  destruct (open_fails fs) eqn:Ho.
  { do 2 eexists. split; [reflexivity|]. repeat split; eauto. }
  destruct (write_file fs papers) as [written [e|]] eqn:Hw.
  { do 2 eexists. split; [reflexivity|]. repeat split; eauto. discriminate. }
  do 2 eexists. split; [reflexivity|]. split; [discriminate|].
  unfold write_file in Hw. destruct (write_fails fs 0) eqn:H0; [discriminate|].
  destruct (write_rows fs 1 papers (render_row (map list_ascii_of_string headers)))
    as [written' [e|]] eqn:Hrows; [discriminate|].
  split; [|split].
  - intros call Hcall Hfail. destruct call as [|call]; [congruence|].
    destruct (write_rows_fails fs papers 1%nat
                (render_row (map list_ascii_of_string headers)) (S call))
      as (w & e & Hcontra); [lia | assumption | congruence].
  - intros Hc. rewrite Hc in Hw. discriminate.
  - intros p e Hin Hrow. exfalso. clear Hw H0 Ho Hm.
    revert Hrows. generalize 1%nat (render_row (map list_ascii_of_string headers)).
    induction papers as [|q papers IH]; intros call acc Hrows; [contradiction|].
    cbn [write_rows] in Hrows. destruct Hin as [-> | Hin].
    + rewrite Hrow in Hrows. discriminate.
    + destruct (paper_row q); [|discriminate].
      destruct (write_fails fs call); [discriminate|]. eapply IH; eassumption.
Qed.

(** C10: with no record, the folder is still created and the file holds
    the header row alone, on one line; the export is reported as done. *)
Theorem export_empty fs folder_path filename :
  succeeds fs ->
  save_papers_to_file fs [] folder_path filename =
    OK ({| folders := [folder_path];
           files := [(os_path_join folder_path filename,
                      list_ascii_of_string "Title,Authors,Published,Summary,PDF URL,References"
                        ++ [cr; lf])] |},
        Saved 0 (os_path_join folder_path filename)) /\
  count_lines (list_ascii_of_string "Title,Authors,Published,Summary,PDF URL,References"
                 ++ [cr; lf]) = 1%nat /\
  csv_reader (list_ascii_of_string "Title,Authors,Published,Summary,PDF URL,References"
                ++ [cr; lf]) = OK [header_row].
Proof.
  intros Hfs. split; [|split; reflexivity].
  rewrite (save_succeeds fs [] folder_path filename Hfs (Forall_nil _)). reflexivity.
Qed.

(** ** Whole runs *)

Local Open Scope Z_scope.

Lemma len_app papers p : len (papers ++ [p]) = len papers + 1.
Proof. unfold len. rewrite length_app. cbn [List.length]. lia. Qed.

(** Well-formed entries that fit under [max_papers] are all turned into
    records. *)
Lemma add_entries_all max_papers entries : forall papers,
  forallb well_formed_entry entries = true ->
  len papers + Z.of_nat (List.length entries) <= max_papers ->
  exists added,
    add_entries max_papers entries papers = (papers ++ added, None) /\
    List.length added = List.length entries /\
    Forall (fun p => forallb is_string (authors p) = true) added.
Proof.
  induction entries as [|entry entries IH]; intros papers Hwf Hfit.
  - exists []. cbn. rewrite app_nil_r. auto.
  - cbn [forallb] in Hwf. apply andb_prop in Hwf as [Hentry Hrest].
    destruct (well_formed_make_paper entry Hentry) as (p & Hp & Hauthors).
    cbn [add_entries]. rewrite Hp. cbn [List.length] in Hfit.
    destruct (max_papers <=? len (papers ++ [p])) eqn:Hfull.
    + apply Z.leb_le in Hfull. rewrite len_app in Hfull.
      destruct entries as [|entry' entries]; [|cbn [List.length] in Hfit; lia].
      exists [p]. auto.
    + destruct (IH (papers ++ [p]) Hrest) as (added & Hadd & Hlen & Hall).
      { rewrite len_app. lia. }
      exists (p :: added). rewrite Hadd, <- app_assoc. cbn [app List.length]. auto.
Qed.

(** C8, as amended: with [max_papers = 10] and [batch_size = 10], against
    an API whose one page holds exactly ten well-formed entries, the fetcher
    sends one request and returns ten records; exporting them gives a CSV
    file of eleven rows, the header and ten data rows, which are eleven
    lines when no cell holds a line break. *)
Theorem one_full_page api query status_code d entries fs folder_path filename :
  (forall req, api 0%nat req = Response status_code (Some (VDict d))) ->
  200 <= status_code < 300 ->
  dict_lookup "data" d = Some (VList entries) ->
  List.length entries = 10%nat ->
  forallb well_formed_entry entries = true ->
  succeeds fs ->
  exists final written,
    search_run api query 10 10 = OK (final, [([], request_for query 0 10)]) /\
    search_semantic_scholar api query 10 10 = OK final /\
    List.length final = 10%nat /\
    save_papers_to_file fs final folder_path filename =
      OK ({| folders := [folder_path];
             files := [(os_path_join folder_path filename, written)] |},
          Saved 10 (os_path_join folder_path filename)) /\
    csv_reader written = OK (header_row :: map expected_row final) /\
    List.length (header_row :: map expected_row final) = 11%nat /\
    (Forall (fun p => forallb single_line (expected_row p) = true) final ->
     count_lines written = 11%nat).
Proof.
  intros Hapi Hstatus Hdata Hlen Hwf Hfs.
  destruct (add_entries_all 10 entries [] Hwf) as (final & Hadd & Hfinal & Hall).
  { rewrite Hlen. cbn. lia. }
  assert (Hres : page_results (Response status_code (Some (VDict d))) = Some entries).
  { unfold page_results, raise_for_status.
    replace (400 <=? status_code) with false by (symmetry; apply Z.leb_gt; lia).
    cbn [andb]. rewrite Hdata. reflexivity. }
  assert (Hrun : search_run api query 10 10 = OK (final, [([], request_for query 0 10)])).
  { unfold search_run. change (py_range 0 10 10) with (OK [0]). cbn [bind pages].
    change (make_request query 10 10 0 []) with (request_for query 0 10).
    rewrite Hapi. unfold process_page. rewrite (page_entries_results _ _ Hres).
    destruct entries as [|entry entries]; [discriminate|].
    rewrite Hadd, Hlen. reflexivity. }
  exists final, (List.concat (map render_row (header_row :: map expected_row final))).
  assert (Hten : len final = 10) by (unfold len; rewrite Hfinal, Hlen; reflexivity).
  split; [assumption|]. split.
  { unfold search_semantic_scholar. rewrite Hrun. reflexivity. }
  split; [congruence|]. split.
  { rewrite <- Hten. apply save_succeeds; assumption. }
  split; [apply csv_round_trip|]. split.
  { cbn [List.length]. rewrite length_map. congruence. }
  intros Hlines. rewrite count_lines_rows.
  - cbn [List.length]. rewrite length_map. congruence.
  - constructor; [reflexivity|]. apply Forall_map. assumption.
Qed.

(** ** The maximum, for pages of at most [batch_size] entries *)

Lemma add_entries_bound max_papers entries : forall papers,
  len papers < max_papers ->
  len (fst (add_entries max_papers entries papers)) <= max_papers /\
  len (fst (add_entries max_papers entries papers))
    <= len papers + Z.of_nat (List.length entries).
Proof.
  induction entries as [|entry entries IH]; intros papers Hroom; cbn [add_entries].
  - cbn [fst List.length]. lia.
  - destruct (make_paper entry) as [p|e]; [|cbn [fst List.length]; lia].
    destruct (max_papers <=? len (papers ++ [p])) eqn:Hfull.
    + cbn [fst List.length]. rewrite len_app. lia.
    + apply Z.leb_gt in Hfull. destruct (IH (papers ++ [p]) Hfull) as [Hmax Hgrow].
      rewrite len_app in Hgrow. cbn [List.length]. lia.
Qed.

(** Entries that are not objects add nothing. *)
Lemma add_entries_strings max_papers entries papers :
  Forall (fun entry => is_string entry = true) entries ->
  fst (add_entries max_papers entries papers) = papers.
Proof.
  intros H. destruct H as [|entry entries Hentry _]; [reflexivity|].
  destruct entry; try discriminate. reflexivity.
Qed.

Lemma chars_are_strings s : Forall (fun entry => is_string entry = true) (chars_of s).
Proof. induction s; cbn; constructor; auto. Qed.

(** The entries the loop goes through are the results of the page, or the
    keys or characters of something that is not a list. *)
Lemma page_entries_cases resp entries n :
  page_entries resp = OK (Some (entries, n)) ->
  page_results resp = Some entries \/
  Forall (fun entry => is_string entry = true) entries.
Proof.
  unfold page_entries, page_results. destruct resp as [|status body]; [discriminate|].
  destruct (raise_for_status status) as [[]|e]; [|discriminate]. cbn [bind].
  destruct body as [data|]; [|discriminate]. cbn [response_json bind]. intros H.
  apply bind_ok in H as (present & Hin & H). destruct present; [|discriminate].
  apply bind_ok in H as (found & Hfound & H).
  destruct (py_truthy found); [|discriminate].
  apply bind_ok in H as (n' & Hn & H). apply bind_ok in H as (entries' & Hiter & H).
  inversion H; subst. destruct data as [| | | | |d]; try discriminate.
  cbn [py_getitem] in Hfound. destruct (dict_lookup "data" d) as [v|]; [|discriminate].
  inversion Hfound; subst. destruct found as [| | |s|l|d']; try discriminate;
    cbn [py_iter] in Hiter; inversion Hiter; subst.
  - right. apply chars_are_strings.
  - left. reflexivity.
  - right. apply Forall_map. apply Forall_forall. reflexivity.
Qed.

Lemma process_page_bound max_papers batch_size papers resp :
  0 <= batch_size ->
  (forall results, page_results resp = Some results ->
                   Z.of_nat (List.length results) <= batch_size) ->
  len papers < max_papers ->
  len (fst (process_page max_papers batch_size papers resp)) <= max_papers /\
  len (fst (process_page max_papers batch_size papers resp)) <= len papers + batch_size.
Proof.
  intros Hb Hresp Hroom. unfold process_page.
  destruct (page_entries resp) as [[[entries n]|]|e] eqn:Hentries;
    [|cbn [fst]; lia|cbn [fst]; lia].
  assert (Hfst : len (fst (add_entries max_papers entries papers)) <= max_papers /\
                 len (fst (add_entries max_papers entries papers)) <= len papers + batch_size).
  { destruct (page_entries_cases _ _ _ Hentries) as [Hres | Hstr].
    - destruct (add_entries_bound max_papers entries papers Hroom) as [Hmax Hgrow].
      specialize (Hresp _ Hres). lia.
    - rewrite add_entries_strings by assumption. lia. }
  destruct (add_entries max_papers entries papers) as [papers' [e|]]; cbn [fst] in *;
    [assumption|]. destruct (n <? batch_size); assumption.
Qed.

Section Bound.

Variable api : server.
Variable query : string.
Variables max_papers batch_size : Z.

Hypothesis positive_batch : 0 < batch_size.
Hypothesis pages_fit : forall call req results,
  page_results (api call req) = Some results ->
  Z.of_nat (List.length results) <= batch_size.

Lemma pages_bound n : forall first call papers,
  (forall i, (i < first + n)%nat -> Z.of_nat i * batch_size < max_papers) ->
  len papers <= Z.of_nat first * batch_size ->
  len papers <= max_papers ->
  len (fst (pages api query max_papers batch_size call
              (map (fun i => 0 + Z.of_nat i * batch_size) (seq first n)) papers))
    <= max_papers.
Proof.
  induction n as [|n IH]; intros first call papers Hoff Hlen Hmax; [assumption|].
  cbn [seq map pages].
  assert (Hroom : len papers < max_papers) by (specialize (Hoff first); lia).
  match goal with
  | |- context [process_page ?m ?b ?p ?r] =>
      destruct (process_page_bound m b p r (Z.lt_le_incl _ _ positive_batch)
                  (pages_fit _ _) Hroom) as [Hafter Hgrow];
      destruct (process_page m b p r) as [papers' [|why]]
  end; cbn [fst] in *; [|assumption].
  specialize (IH (S first) (S call) papers').
  match goal with
  | |- context [pages ?a ?q ?m ?b ?c ?o ?p] => destruct (pages a q m b c o p) as [final tr]
  end.
  cbn [fst] in *. apply IH; [| lia | assumption].
  intros i Hi. apply Hoff. lia.
Qed.

End Bound.

(** When no page carries more than [batch_size] results and [max_papers]
    is not negative, at most [max_papers] records are returned. *)
Lemma within_maximum api query max_papers batch_size final :
  0 <= max_papers ->
  (forall call req results,
      page_results (api call req) = Some results ->
      Z.of_nat (List.length results) <= batch_size) ->
  search_semantic_scholar api query max_papers batch_size = OK final ->
  len final <= max_papers.
Proof.
  intros Hmax Hfit. unfold search_semantic_scholar, search_run, py_range.
  destruct (batch_size =? 0) eqn:Hzero; [discriminate|]. apply Z.eqb_neq in Hzero.
  cbn [bind]. intros H. inversion H; subst final. clear H.
  destruct (Z.lt_ge_cases 0 batch_size) as [Hpos | Hneg].
  - apply pages_bound; try assumption; [|cbn; lia].
    intros i Hi. unfold range_len in Hi.
    replace (0 <? batch_size) with true in Hi by (symmetry; apply Z.ltb_lt; lia).
    destruct (0 <? max_papers) eqn:Hstop; [|cbn in Hi; lia].
    apply Z.ltb_lt in Hstop.
    assert (Hq : Z.of_nat i <= (max_papers - 0 - 1) / batch_size).
    { assert (0 <= (max_papers - 0 - 1) / batch_size) by (apply Z.div_pos; lia). lia. }
    pose proof (Z.mul_div_le (max_papers - 0 - 1) batch_size Hpos). nia.
  - unfold range_len.
    replace (0 <? batch_size) with false by (symmetry; apply Z.ltb_ge; lia).
    replace (max_papers <? 0) with false by (symmetry; apply Z.ltb_ge; lia).
    cbn. lia.
Qed.

(** C1: the maximum is not kept when a page brings more entries than were
    asked for.  With [max_papers = 2] and [batch_size = 1], a first page of
    two entries fills the list; the loop over the entries is left, the loop
    over the offsets is not, and the next page adds a third record. *)
Theorem maximum_exceeded :
  search_run over_delivering "machine learning" 2 1 =
    OK ([bare_paper; bare_paper; bare_paper],
        [([], request_for "machine learning" 0 1);
         ([bare_paper; bare_paper], request_for "machine learning" 1 0)]) /\
  search_semantic_scholar over_delivering "machine learning" 2 1 =
    OK [bare_paper; bare_paper; bare_paper] /\
  2 < len [bare_paper; bare_paper; bare_paper].
Proof. repeat split. Qed.

(** A status outside 200..299 that [raise_for_status] accepts does not end
    the run: the page is used and the next one is requested. *)
Lemma non_2xx_page_is_used :
  non_2xx 300 = true /\
  search_run multiple_choices "machine learning" 2 1 =
    OK ([bare_paper; bare_paper],
        [([], request_for "machine learning" 0 1);
         ([bare_paper], request_for "machine learning" 1 1)]).
Proof. split; reflexivity. Qed.

(** A title with a semicolon gives a citation with a semicolon. *)
Lemma citation_with_semicolon :
  make_paper semicolon_entry =
    OK {| title := VStr "No title";
          summary := VStr "No abstract available";
          authors := [];
          published := VStr "Unknown";
          pdf_url := VStr "No URL available";
          references :=
            ("[1] , " ++ str1 dquote ++ "Graphs; trees," ++ str1 dquote ++ " Unknown.")%string |} /\
  has_char semicolon
    ("[1] , " ++ str1 dquote ++ "Graphs; trees," ++ str1 dquote ++ " Unknown.")%string = true.
Proof. split; reflexivity. Qed.

(** C5: not every field of every record has a defined value.  For the
    entry whose abstract is an explicit null, the abstract is there, the
    placeholder of [get] is not used and the record's [summary] is [None]. *)
Theorem null_abstract_kept :
  make_paper null_abstract_entry =
    OK {| title := VStr "No title";
          summary := VNone;
          authors := [];
          published := VStr "Unknown";
          pdf_url := VStr "No URL available";
          references := "No references available" |}.
Proof. reflexivity. Qed.

(** A cell with a line break is quoted and takes two lines of the file:
    ten records, eleven rows, twelve lines. *)
Lemma two_line_abstract_adds_a_line :
  exists written rows,
    search_semantic_scholar ten_results_two_lines "machine learning" 10 10 =
      OK (two_line_paper :: repeat bare_paper 9) /\
    save_papers_to_file reliable (two_line_paper :: repeat bare_paper 9)
        "output_papers" "semantic_scholar_papers.csv" =
      OK ({| folders := ["output_papers"%string];
             files := [("output_papers/semantic_scholar_papers.csv"%string, written)] |},
          Saved 10 "output_papers/semantic_scholar_papers.csv") /\
    csv_reader written = OK rows /\
    List.length rows = 11%nat /\
    count_lines written = 12%nat.
Proof.
  exists (List.concat (map render_row
            (header_row :: map expected_row (two_line_paper :: repeat bare_paper 9)))).
  exists (header_row :: map expected_row (two_line_paper :: repeat bare_paper 9)).
  split; [vm_compute; reflexivity|]. split; [vm_compute; reflexivity|].
  split; [apply csv_round_trip|]. split; vm_compute; reflexivity.
Qed.


(** A null title is written as an empty cell, which is what is read
    back. *)
Lemma null_title_is_read_back_empty :
  exists written,
    save_papers_to_file reliable [untitled_paper] "output_papers" "semantic_scholar_papers.csv" =
      OK ({| folders := ["output_papers"%string];
             files := [("output_papers/semantic_scholar_papers.csv"%string, written)] |},
          Saved 1 "output_papers/semantic_scholar_papers.csv") /\
    csv_reader_default written =
      OK [header_row;
          map list_ascii_of_string
              [EmptyString; "A. Author"; "2020"; "No abstract available";
               "https://example.org/p/2"; "No references available"]%string] /\
    title untitled_paper = VNone /\
    py_str (title untitled_paper) = "None"%string.
Proof.
  exists (List.concat (map render_row (header_row :: map expected_row [untitled_paper]))).
  split; [vm_compute; reflexivity|]. split; [vm_compute; reflexivity|].
  split; reflexivity.
Qed.

(** A failure to create the folder is raised to the caller. *)
Lemma makedirs_failure_propagates :
  save_papers_to_file read_only [] "output_papers" "semantic_scholar_papers.csv"
  = Raise OSError.
Proof. reflexivity. Qed.

(** ** The theorems at concrete inputs *)


Lemma short_page_is_last_at_one_result :
  search_run one_result "machine learning" 10 10 =
    OK ([bare_paper], [([], request_for "machine learning" 0 10)]) /\
  page_results (one_result 0%nat (request_for "machine learning" 0 10)) = Some [bare_entry] /\
  Z.of_nat (List.length [bare_entry]) < 10 /\
  List.length [(@nil paper, request_for "machine learning" 0 10)] = 1%nat.
Proof.
  split; [reflexivity|]. split; [reflexivity|]. split; [reflexivity|].
  apply (short_page_is_last one_result "machine learning" 10 10 [bare_paper]
           [([], request_for "machine learning" 0 10)] 0%nat []
           (request_for "machine learning" 0 10) [bare_entry]);
    reflexivity.
Defined.

Lemma failed_request_ends_run_at_500 :
  10 <> 0 /\
  exists final tr,
    search_run failing "machine learning" 10 10 = OK (final, tr) /\
    search_semantic_scholar failing "machine learning" 10 10 = OK final /\
    (forall k before req,
        nth_error tr k = Some (before, req) ->
        request_failed (failing k req) = true ->
        List.length tr = S k /\ final = before) /\
    ((forall req, exists body, failing 0%nat req = Response 500 body) -> final = []).
Proof.
  split; [discriminate|].
  apply (failed_request_ends_run failing "machine learning" 10 10). discriminate.
Defined.

Lemma references_field_at_semicolon_entry :
  make_paper semicolon_entry =
    OK {| title := VStr "No title";
          summary := VStr "No abstract available";
          authors := [];
          published := VStr "Unknown";
          pdf_url := VStr "No URL available";
          references := citation 1 EmptyString (VStr "Graphs; trees") (VStr "Unknown") |} /\
  exists fragments,
    List.length fragments = 1%nat /\
    citation 1 EmptyString (VStr "Graphs; trees") (VStr "Unknown") = String.concat " " fragments.
Proof.
  split; [reflexivity|].
  destruct (references_field
              [("references", VList [VDict [("title", VStr "Graphs; trees")]])]
              {| title := VStr "No title";
                 summary := VStr "No abstract available";
                 authors := [];
                 published := VStr "Unknown";
                 pdf_url := VStr "No URL available";
                 references := citation 1 EmptyString (VStr "Graphs; trees") (VStr "Unknown") |}
              [VDict [("title", VStr "Graphs; trees")]] eq_refl eq_refl) as [_ Hsome].
  destruct (Hsome ltac:(discriminate)) as (fragments & Hlen & Hfield & _).
  exists fragments. split; assumption.
Defined.

Lemma missing_fields_at_bare_entry :
  make_paper (VDict []) = OK bare_paper /\
  summary bare_paper = VStr "No abstract available" /\
  pdf_url bare_paper = VStr "No URL available" /\
  published bare_paper = VStr "Unknown".
Proof.
  split; [reflexivity|].
  destruct (missing_fields [] bare_paper eq_refl) as (Hs & Hu & Hy & _).
  split; [apply Hs; reflexivity|]. split; [apply Hu | apply Hy]; reflexivity.
Defined.



Lemma export_failures_reported_at_failures :
  save_papers_to_file read_only [sample_paper] "output_papers" "semantic_scholar_papers.csv"
    = Raise OSError /\
  (exists left_on_disk,
      save_papers_to_file locked_file [sample_paper] "output_papers"
        "semantic_scholar_papers.csv" = OK (left_on_disk, Failed OSError)) /\
  (exists left_on_disk e,
      save_papers_to_file full_disk [sample_paper] "output_papers"
        "semantic_scholar_papers.csv" = OK (left_on_disk, Failed e)).
Proof.
  split; [|split].
  - apply (export_failures_reported read_only [sample_paper] "output_papers"
             "semantic_scholar_papers.csv"). reflexivity.
  - destruct (proj2 (export_failures_reported locked_file [sample_paper] "output_papers"
                       "semantic_scholar_papers.csv") eq_refl)
      as (left_on_disk & r & Hsave & Hopen & _).
    exists left_on_disk. rewrite <- (Hopen eq_refl). exact Hsave.
  - destruct (proj2 (export_failures_reported full_disk [sample_paper] "output_papers"
                       "semantic_scholar_papers.csv") eq_refl)
      as (left_on_disk & r & Hsave & _ & Hwrite & _).
    destruct (Hwrite 1%nat ltac:(cbn; lia) eq_refl) as (e & He).
    exists left_on_disk, e. rewrite <- He. exact Hsave.
Defined.

Lemma export_empty_at_reliable :
  succeeds reliable /\
  save_papers_to_file reliable [] "output_papers" "semantic_scholar_papers.csv" =
    OK ({| folders := ["output_papers"%string];
           files := [("output_papers/semantic_scholar_papers.csv"%string,
                      list_ascii_of_string "Title,Authors,Published,Summary,PDF URL,References"
                        ++ [cr; lf])] |},
        Saved 0 "output_papers/semantic_scholar_papers.csv").
Proof.
  split; [exact reliable_succeeds|].
  apply (export_empty reliable "output_papers" "semantic_scholar_papers.csv" reliable_succeeds).
Defined.

Lemma one_full_page_at_ten_results :
  (forall req, ten_results 0%nat req =
               Response 200 (Some (VDict [("data"%string, VList (repeat bare_entry 10))]))) /\
  200 <= 200 < 300 /\
  List.length (repeat bare_entry 10) = 10%nat /\
  forallb well_formed_entry (repeat bare_entry 10) = true /\
  succeeds reliable /\
  exists final written,
    search_run ten_results "machine learning" 10 10 =
      OK (final, [([], request_for "machine learning" 0 10)]) /\
    search_semantic_scholar ten_results "machine learning" 10 10 = OK final /\
    List.length final = 10%nat /\
    save_papers_to_file reliable final "output_papers" "semantic_scholar_papers.csv" =
      OK ({| folders := ["output_papers"%string];
             files := [(os_path_join "output_papers" "semantic_scholar_papers.csv", written)] |},
          Saved 10 (os_path_join "output_papers" "semantic_scholar_papers.csv")) /\
    csv_reader written = OK (header_row :: map expected_row final) /\
    List.length (header_row :: map expected_row final) = 11%nat /\
    (Forall (fun p => forallb single_line (expected_row p) = true) final ->
     count_lines written = 11%nat).
Proof.
  split; [reflexivity|]. split; [lia|]. split; [reflexivity|]. split; [reflexivity|].
  split; [exact reliable_succeeds|].
  apply (one_full_page ten_results "machine learning" 200
           [("data"%string, VList (repeat bare_entry 10))] (repeat bare_entry 10)
           reliable "output_papers" "semantic_scholar_papers.csv");
    [reflexivity | lia | reflexivity | reflexivity | reflexivity | exact reliable_succeeds].
Defined.

(** * Further properties of the fetcher *)

(** With [batch_size = 0] the call raises the [ValueError] of [range],
    whatever the server and the other arguments: nothing is requested and
    no list is returned. *)
Theorem zero_batch_size_raises api query max_papers :
  search_run api query max_papers 0 = Raise ValueError /\
  search_semantic_scholar api query max_papers 0 = Raise ValueError.
Proof. split; reflexivity. Qed.

(** With a step and a bound of opposite direction [range] is empty: no
    request is sent and the empty list is returned. *)
Theorem empty_range_sends_nothing api query max_papers batch_size :
  (0 < batch_size /\ max_papers <= 0) \/ (batch_size < 0 /\ 0 <= max_papers) ->
  search_run api query max_papers batch_size = OK ([], []).
Proof.
  intros H. unfold search_run, py_range, range_len.
  destruct H as [[Hb Hm] | [Hb Hm]].
  - replace (batch_size =? 0) with false by (symmetry; apply Z.eqb_neq; lia).
    replace (0 <? batch_size) with true by (symmetry; apply Z.ltb_lt; lia).
    replace (0 <? max_papers) with false by (symmetry; apply Z.ltb_ge; lia).
    reflexivity.
  - replace (batch_size =? 0) with false by (symmetry; apply Z.eqb_neq; lia).
    replace (0 <? batch_size) with false by (symmetry; apply Z.ltb_ge; lia).
    replace (max_papers <? 0) with false by (symmetry; apply Z.ltb_ge; lia).
    reflexivity.
Qed.

Section Offsets.

Variable api : server.
Variable query : string.
Variables max_papers batch_size : Z.

(** The requests follow the offsets of the loop, one request per offset
    until the loop is left. *)
Lemma pages_follow_offsets offsets : forall call papers final tr,
  pages api query max_papers batch_size call offsets papers = (final, tr) ->
  (List.length tr <= List.length offsets)%nat /\
  forall k before req, nth_error tr k = Some (before, req) ->
    exists offset, nth_error offsets k = Some offset /\
                   req = make_request query max_papers batch_size offset before.
Proof.
  induction offsets as [|offset rest IH]; intros call papers final tr Hrun.
  - cbn in Hrun. inversion Hrun; subst. split; [reflexivity|].
    intros k before req Hk. destruct k; discriminate.
  - cbn [pages] in Hrun.
    destruct (process_page max_papers batch_size papers _) as [papers' [|why]].
    + destruct (pages api query max_papers batch_size (S call) rest papers')
        as [final' tr'] eqn:Hrest.
      inversion Hrun; subst. destruct (IH _ _ _ _ Hrest) as [Hlen Hnth].
      split; [cbn [List.length]; lia|]. intros k before req Hk. destruct k as [|k].
      * cbn in Hk. inversion Hk; subst. exists offset. split; reflexivity.
      * cbn in Hk. cbn [nth_error]. apply Hnth. assumption.
    + inversion Hrun; subst. split; [cbn [List.length]; lia|].
      intros k before req Hk. destruct k as [|[|k]]; try discriminate.
      cbn in Hk. inversion Hk; subst. exists offset. split; reflexivity.
Qed.

(** Records are only ever appended. *)
Lemma add_entries_extends entries : forall papers,
  exists added, fst (add_entries max_papers entries papers) = papers ++ added.
Proof.
  induction entries as [|entry entries IH]; intros papers; cbn [add_entries].
  - exists []. cbn. rewrite app_nil_r. reflexivity.
  - destruct (make_paper entry) as [p|e]; [|exists []; cbn; rewrite app_nil_r; reflexivity].
    destruct (max_papers <=? len (papers ++ [p])).
    + exists [p]. reflexivity.
    + destruct (IH (papers ++ [p])) as (added & Hadd). exists (p :: added).
      rewrite Hadd, <- app_assoc. reflexivity.
Qed.

Lemma process_page_extends papers resp :
  exists added, fst (process_page max_papers batch_size papers resp) = papers ++ added.
Proof.
  unfold process_page.
  destruct (page_entries resp) as [[[entries n]|]|e];
    try (exists []; cbn; rewrite app_nil_r; reflexivity).
  destruct (add_entries_extends entries papers) as (added & Hadd).
  exists added. destruct (add_entries max_papers entries papers) as [papers' [e|]];
    [assumption|]. destruct (n <? batch_size); assumption.
Qed.

Lemma pages_extend offsets : forall call papers final tr,
  pages api query max_papers batch_size call offsets papers = (final, tr) ->
  (exists later, final = papers ++ later) /\
  forall before req, In (before, req) tr -> exists later, final = before ++ later.
Proof.
  induction offsets as [|offset rest IH]; intros call papers final tr Hrun.
  - cbn in Hrun. inversion Hrun; subst. split; [|contradiction].
    exists []. rewrite app_nil_r. reflexivity.
  - cbn [pages] in Hrun.
    match type of Hrun with
    | context [process_page ?m ?b ?p ?r] =>
        destruct (process_page_extends p r) as (added & Hadd);
        destruct (process_page m b p r) as [papers' [|why]]
    end; cbn [fst] in Hadd.
    + destruct (pages api query max_papers batch_size (S call) rest papers')
        as [final' tr'] eqn:Hrest.
      inversion Hrun; subst. destruct (IH _ _ _ _ Hrest) as [[later Hlater] Hin].
      assert (Hfirst : exists later', final = papers ++ later').
      { exists (added ++ later). rewrite Hlater, app_assoc. reflexivity. }
      split; [assumption|]. intros before req [Hhd | Htl].
      * inversion Hhd; subst. assumption.
      * eapply Hin; eassumption.
    + inversion Hrun; subst.
      assert (Hfirst : exists later', papers ++ added = papers ++ later') by eauto.
      split; [assumption|]. intros before req [Hhd | []]. inversion Hhd; subst. assumption.
Qed.

End Offsets.

(** The k-th request of a run asks for offset [k * batch_size], with the
    query and the field list unchanged; a run sends at most as many requests
    as [range(0, max_papers, batch_size)] has offsets. *)
Theorem request_offsets api query max_papers batch_size final tr :
  search_run api query max_papers batch_size = OK (final, tr) ->
  Z.of_nat (List.length tr) <= Z.max 0 (range_len 0 max_papers batch_size) /\
  forall k before req, nth_error tr k = Some (before, req) ->
    q_offset req = Z.of_nat k * batch_size /\
    q_query req = query /\
    q_fields req = "title,authors,abstract,year,url,references".
Proof.
  unfold search_run, py_range. destruct (batch_size =? 0); [discriminate|].
  cbn [bind]. intros H. inversion H as [Hrun]. clear H.
  destruct (pages_follow_offsets _ _ _ _ _ _ _ _ _ Hrun) as [Hlen Hnth].
  rewrite length_map, length_seq in Hlen. split; [lia|].
  intros k before req Hk. destruct (Hnth _ _ _ Hk) as (offset & Hoff & ->).
  match type of Hoff with
  | nth_error ?l _ = _ =>
      assert (Hkn : (k < List.length l)%nat) by (apply nth_error_Some; rewrite Hoff; discriminate)
  end.
  rewrite length_map, length_seq in Hkn.
  rewrite nth_error_map, nth_error_seq in Hoff.
  destruct (Nat.ltb_spec k (Z.to_nat (range_len 0 max_papers batch_size))); [|lia].
  cbn in Hoff. inversion Hoff; subst. repeat split.
Qed.

(** The records held when a request is sent are still there, in the same
    order, at the start of the list that is returned. *)
Theorem records_only_grow api query max_papers batch_size final tr before req :
  search_run api query max_papers batch_size = OK (final, tr) ->
  In (before, req) tr ->
  exists later, final = before ++ later.
Proof.
  unfold search_run. destruct (py_range 0 max_papers batch_size) as [offsets|e]; [|discriminate].
  cbn [bind]. intros H Hin. inversion H as [Hrun].
  destruct (pages_extend _ _ _ _ _ _ _ _ _ Hrun) as [_ Hall]. eauto.
Qed.

(** Well-formed entries are turned into records, in order, until
    [max_papers] is reached. *)
Lemma add_entries_upto max_papers entries : forall papers,
  forallb well_formed_entry entries = true ->
  len papers < max_papers ->
  exists added,
    add_entries max_papers entries papers = (papers ++ added, None) /\
    len (papers ++ added) = Z.min max_papers (len papers + Z.of_nat (List.length entries)) /\
    mapM make_paper (firstn (List.length added) entries) = OK added.
Proof.
  induction entries as [|entry entries IH]; intros papers Hwf Hroom.
  - exists []. cbn. rewrite app_nil_r. repeat split. lia.
  - cbn [forallb] in Hwf. apply andb_prop in Hwf as [Hentry Hrest].
    destruct (well_formed_make_paper entry Hentry) as (p & Hp & _).
    cbn [add_entries]. rewrite Hp.
    destruct (max_papers <=? len (papers ++ [p])) eqn:Hfull.
    + apply Z.leb_le in Hfull. exists [p]. rewrite len_app in *.
      cbn [List.length firstn mapM bind]. rewrite Hp. cbn [bind]. repeat split. lia.
    + apply Z.leb_gt in Hfull. destruct (IH (papers ++ [p]) Hrest Hfull) as (added & Hadd & Hlen & Hmap).
      exists (p :: added). rewrite Hadd, <- app_assoc in *. cbn [app] in *.
      rewrite len_app in Hlen. cbn [List.length firstn mapM]. rewrite Hp, Hmap. cbn [bind].
      repeat split. lia.
Qed.

(** An entry that cannot be turned into a record ends the page; the
    records of the entries before it stay. *)
Lemma add_entries_malformed max_papers good bad rest e : forall papers,
  forallb well_formed_entry good = true ->
  make_paper bad = Raise e ->
  len papers + Z.of_nat (List.length good) < max_papers ->
  exists added,
    mapM make_paper good = OK added /\
    add_entries max_papers (good ++ bad :: rest) papers = (papers ++ added, Some e).
Proof.
  induction good as [|entry good IH]; intros papers Hwf Hbad Hroom.
  - exists []. cbn. rewrite Hbad, app_nil_r. auto.
  - cbn [forallb] in Hwf. apply andb_prop in Hwf as [Hentry Hrest].
    destruct (well_formed_make_paper entry Hentry) as (p & Hp & _).
    cbn [List.length] in Hroom. cbn [app add_entries mapM]. rewrite Hp. cbn [bind].
    replace (max_papers <=? len (papers ++ [p])) with false
      by (symmetry; apply Z.leb_gt; rewrite len_app; lia).
    destruct (IH (papers ++ [p]) Hrest Hbad) as (added & Hmap & Hadd).
    { rewrite len_app. lia. }
    exists (p :: added). rewrite Hmap, Hadd, <- app_assoc. auto.
Qed.

(** When an entry of a page cannot be turned into a record, the exception
    is caught, the loop is left and the records built from the entries
    before it on the same page are kept. *)
Theorem malformed_entry_keeps_earlier max_papers batch_size papers resp good bad rest e :
  page_results resp = Some (good ++ bad :: rest) ->
  forallb well_formed_entry good = true ->
  make_paper bad = Raise e ->
  len papers + Z.of_nat (List.length good) < max_papers ->
  exists added,
    mapM make_paper good = OK added /\
    process_page max_papers batch_size papers resp = (papers ++ added, Break (Caught e)).
Proof.
  intros Hres Hwf Hbad Hroom.
  destruct (add_entries_malformed max_papers good bad rest e papers Hwf Hbad Hroom)
    as (added & Hmap & Hadd).
  exists added. split; [assumption|]. unfold process_page.
  rewrite (page_entries_results _ _ Hres).
  destruct (good ++ bad :: rest) eqn:Hall; [destruct good; discriminate|].
  rewrite Hadd. reflexivity.
Qed.

(** Only an accepted response whose body is a JSON object with a list
    under ["data"] can add records or let the pagination go on: any other
    response leaves the records as they are and ends the run. *)
Theorem unusable_page_stops max_papers batch_size papers resp :
  page_results resp = None ->
  exists why, process_page max_papers batch_size papers resp = (papers, Break why).
Proof.
  intros Hnone. unfold process_page.
  destruct (page_entries resp) as [[[entries n]|]|e] eqn:Hentries; [|eauto|eauto].
  destruct (page_entries_cases _ _ _ Hentries) as [Hres | Hstr]; [congruence|].
  pose proof (add_entries_strings max_papers entries papers Hstr) as Hfst.
  destruct Hstr as [|entry entries' Hentry _].
  - exfalso. revert Hentries. unfold page_entries.
    destruct resp as [|status body]; [discriminate|].
    destruct (raise_for_status status) as [[]|]; [|discriminate]. cbn [bind].
    destruct body as [data|]; [|discriminate]. cbn [response_json bind]. intros H.
    apply bind_ok in H as (present & _ & H). destruct present; [|discriminate].
    apply bind_ok in H as (found & _ & H).
    destruct (py_truthy found) eqn:Htrue; [|discriminate].
    apply bind_ok in H as (n' & _ & H). apply bind_ok in H as (entries' & Hiter & H).
    inversion H; subst.
    destruct found as [| | |s|l|d]; try discriminate; cbn in Hiter, Htrue;
      inversion Hiter as [Hnil].
    + destruct s; discriminate.
    + subst l. discriminate.
    + destruct d; discriminate.
  - destruct entry; try discriminate. cbn [add_entries make_paper py_get bind]. eauto.
Qed.

Section FullPages.

Variable api : server.
Variable query : string.
Variables max_papers batch_size : Z.

Hypothesis positive_batch : 0 < batch_size.
Hypothesis full_pages : forall call req,
  exists entries,
    page_results (api call req) = Some entries /\
    Z.of_nat (List.length entries) = batch_size /\
    forallb well_formed_entry entries = true.

Lemma pages_full n : forall first call papers,
  (forall i, (i < first + n)%nat -> Z.of_nat i * batch_size < max_papers) ->
  max_papers <= Z.of_nat (first + n) * batch_size ->
  len papers = Z.min max_papers (Z.of_nat first * batch_size) ->
  exists final tr,
    pages api query max_papers batch_size call
      (map (fun i => Z.of_nat i * batch_size) (seq first n)) papers = (final, tr) /\
    len final = max_papers /\ List.length tr = n.
Proof.
  induction n as [|n IH]; intros first call papers Hoff Hcover Hlen.
  - exists papers, []. cbn. repeat split. rewrite Nat.add_0_r in Hcover. lia.
  - cbn [seq map pages].
    assert (Hroom : len papers < max_papers) by (specialize (Hoff first); lia).
    destruct (full_pages call (make_request query max_papers batch_size
                                 (Z.of_nat first * batch_size) papers))
      as (entries & Hres & Hsize & Hwf).
    destruct (add_entries_upto max_papers entries papers Hwf Hroom) as (added & Hadd & Hnew & _).
    unfold process_page. rewrite (page_entries_results _ _ Hres).
    destruct entries as [|entry entries]; [cbn in Hsize; lia|].
    rewrite Hadd, Hsize, Z.ltb_irrefl.
    destruct (IH (S first) (S call) (papers ++ added)) as (final & tr & Hrun & Hfinal & Htr).
    + intros i Hi. apply Hoff. lia.
    + replace (S first + n)%nat with (first + S n)%nat by lia. assumption.
    + rewrite Hnew, Hsize. specialize (Hoff first). lia.
    + rewrite Hrun. exists final. eexists. split; [reflexivity|].
      split; [assumption | cbn; congruence].
Qed.

End FullPages.

(** Against an API that fills every page with [batch_size] well-formed
    entries, exactly [max_papers] records are returned, after
    [ceil(max_papers / batch_size)] requests. *)
Theorem full_pages_reach_maximum api query max_papers batch_size :
  0 < batch_size ->
  0 <= max_papers ->
  (forall call req,
      exists entries,
        page_results (api call req) = Some entries /\
        Z.of_nat (List.length entries) = batch_size /\
        forallb well_formed_entry entries = true) ->
  exists final tr,
    search_run api query max_papers batch_size = OK (final, tr) /\
    len final = max_papers /\
    Z.of_nat (List.length tr) = (max_papers + batch_size - 1) / batch_size.
Proof.
  intros Hb Hm Hfull. unfold search_run, py_range.
  replace (batch_size =? 0) with false by (symmetry; apply Z.eqb_neq; lia).
  cbn [bind].
  assert (Hlen : range_len 0 max_papers batch_size = (max_papers + batch_size - 1) / batch_size).
  { unfold range_len. replace (0 <? batch_size) with true by (symmetry; apply Z.ltb_lt; lia).
    destruct (0 <? max_papers) eqn:Hpos.
    - replace (max_papers + batch_size - 1) with (max_papers - 0 - 1 + 1 * batch_size) by lia.
      rewrite Z.div_add by lia. reflexivity.
    - apply Z.ltb_ge in Hpos. replace max_papers with 0 by lia.
      symmetry. apply Z.div_small. lia. }
  assert (Hnonneg : 0 <= (max_papers + batch_size - 1) / batch_size) by (apply Z.div_pos; lia).
  destruct (pages_full api query max_papers batch_size Hb Hfull
              (Z.to_nat (range_len 0 max_papers batch_size)) 0%nat 0%nat [])
    as (final & tr & Hrun & Hfinal & Htr).
  - intros i Hi. rewrite Hlen in Hi. cbn [Nat.add] in Hi.
    assert (Hq : Z.of_nat i + 1 <= (max_papers + batch_size - 1) / batch_size) by lia.
    pose proof (Z.mul_div_le (max_papers + batch_size - 1) batch_size Hb).
    pose proof (Z.mod_pos_bound (max_papers + batch_size - 1) batch_size Hb).
    nia.
  - cbn [Nat.add]. rewrite Hlen, Z2Nat.id by assumption.
    pose proof (Z.mod_pos_bound (max_papers + batch_size - 1) batch_size Hb).
    pose proof (Z.div_mod (max_papers + batch_size - 1) batch_size ltac:(lia)). nia.
  - cbn. lia.
  - exists final, tr. cbn [Z.add] in *. split; [rewrite <- Hrun; reflexivity|].
    split; [assumption|]. rewrite Htr, Hlen, Z2Nat.id by assumption. rewrite <- Hlen. reflexivity.
Qed.

Section Room.

Variable api : server.
Variable query : string.
Variables max_papers batch_size : Z.

Hypothesis positive_batch : 0 < batch_size.
Hypothesis pages_fit : forall call req results,
  page_results (api call req) = Some results ->
  Z.of_nat (List.length results) <= batch_size.

(** While no page brings more than [batch_size] results, every request is
    sent with fewer than [max_papers] records in hand. *)
Lemma pages_room n : forall first call papers final tr,
  (forall i, (i < first + n)%nat -> Z.of_nat i * batch_size < max_papers) ->
  len papers <= Z.of_nat first * batch_size ->
  pages api query max_papers batch_size call
    (map (fun i => Z.of_nat i * batch_size) (seq first n)) papers = (final, tr) ->
  forall before req, In (before, req) tr -> len before < max_papers.
Proof.
  induction n as [|n IH]; intros first call papers final tr Hoff Hlen Hrun before req Hin.
  - cbn in Hrun. inversion Hrun; subst. contradiction.
  - cbn [seq map pages] in Hrun.
    assert (Hroom : len papers < max_papers) by (specialize (Hoff first); lia).
    match type of Hrun with
    | context [process_page ?m ?b ?p ?r] =>
        destruct (process_page_bound m b p r (Z.lt_le_incl _ _ positive_batch)
                    (pages_fit _ _) Hroom) as [_ Hgrow];
        destruct (process_page m b p r) as [papers' [|why]]
    end; cbn [fst] in Hgrow.
    + destruct (pages api query max_papers batch_size (S call) _ papers')
        as [final' tr'] eqn:Hrest.
      inversion Hrun; subst. destruct Hin as [Hhd | Htl].
      * inversion Hhd; subst. assumption.
      * apply (IH (S first) (S call) papers' final tr') with (req := req);
          try assumption; [|lia].
        intros i Hi. apply Hoff. lia.
    + inversion Hrun; subst. destruct Hin as [Hhd | []]. inversion Hhd; subst. assumption.
Qed.

End Room.

(** While no page brings more than [batch_size] results, every request
    asks for at least one record: the limit is between 1 and
    [batch_size]. *)
Theorem limit_is_positive api query max_papers batch_size final tr before req :
  0 < batch_size ->
  (forall call rq results,
      page_results (api call rq) = Some results ->
      Z.of_nat (List.length results) <= batch_size) ->
  search_run api query max_papers batch_size = OK (final, tr) ->
  In (before, req) tr ->
  1 <= q_limit req <= batch_size.
Proof.
  intros Hb Hfit Hrun Hin.
  assert (Hreq : q_limit req = Z.min batch_size (max_papers - len before)).
  { apply search_run_inv in Hrun as (offsets & _ & Hpages).
    destruct (pages_requests _ _ _ _ _ _ _ _ _ Hpages _ _ Hin) as (offset & _ & ->).
    reflexivity. }
  assert (Hroom : len before < max_papers).
  { revert Hrun. unfold search_run, py_range.
    destruct (batch_size =? 0); [discriminate|]. cbn [bind]. intros H.
    inversion H as [Hpages]. clear H.
    eapply pages_room with (first := 0%nat);
      [exact Hb | exact Hfit | | | exact Hpages | exact Hin].
    - intros i Hi. unfold range_len in Hi.
      replace (0 <? batch_size) with true in Hi by (symmetry; apply Z.ltb_lt; lia).
      destruct (0 <? max_papers) eqn:Hstop; [|cbn in Hi; lia].
      apply Z.ltb_lt in Hstop.
      assert (0 <= (max_papers - 0 - 1) / batch_size) by (apply Z.div_pos; lia).
      pose proof (Z.mul_div_le (max_papers - 0 - 1) batch_size Hb). nia.
    - cbn. lia. }
  lia.
Qed.

Lemma range_starts_at_zero max_papers batch_size :
  0 < batch_size -> 0 < max_papers ->
  exists rest, py_range 0 max_papers batch_size = OK (0 :: rest).
Proof.
  intros Hb Hm. unfold py_range, range_len.
  replace (batch_size =? 0) with false by (symmetry; apply Z.eqb_neq; lia).
  replace (0 <? batch_size) with true by (symmetry; apply Z.ltb_lt; lia).
  replace (0 <? max_papers) with true by (symmetry; apply Z.ltb_lt; lia).
  assert (0 <= (max_papers - 0 - 1) / batch_size) by (apply Z.div_pos; lia).
  destruct (Z.to_nat ((max_papers - 0 - 1) / batch_size + 1)) as [|n] eqn:Hn; [lia|].
  cbn [seq map]. eexists. reflexivity.
Qed.

(** A first page of well-formed entries that is shorter than [batch_size]
    and fits under [max_papers] is returned whole, one record per entry in
    the order of the entries, after a single request. *)
Theorem short_first_page_returned_whole api query max_papers batch_size entries :
  0 < max_papers ->
  (forall req, page_results (api 0%nat req) = Some entries) ->
  forallb well_formed_entry entries = true ->
  Z.of_nat (List.length entries) < batch_size ->
  Z.of_nat (List.length entries) <= max_papers ->
  exists records,
    mapM make_paper entries = OK records /\
    search_run api query max_papers batch_size =
      OK (records, [([], make_request query max_papers batch_size 0 [])]).
Proof.
  intros Hm Hres Hwf Hshort Hfit.
  destruct (range_starts_at_zero max_papers batch_size ltac:(lia) Hm) as (rest & Hrange).
  unfold search_run. rewrite Hrange. cbn [bind pages]. unfold process_page.
  rewrite (page_entries_results _ _ (Hres _)).
  destruct entries as [|entry entries].
  - exists []. split; reflexivity.
  - destruct (add_entries_upto max_papers (entry :: entries) [] Hwf Hm)
      as (added & Hadd & Hlen & Hmap).
    assert (Hall : List.length added = List.length (entry :: entries)).
    { cbn [app] in Hlen. unfold len in Hlen. cbn [List.length] in *. lia. }
    rewrite Hall, firstn_all in Hmap. exists added. split; [assumption|].
    rewrite Hadd. apply Z.ltb_lt in Hshort. rewrite Hshort. reflexivity.
Qed.

(** * Further properties of the records *)

Lemma mapM_Forall2 {A B : Type} (f : A -> result B) l : forall bs,
  mapM f l = OK bs -> Forall2 (fun a b => f a = OK b) l bs.
Proof.
  induction l as [|a l IH]; cbn [mapM]; intros bs H.
  - inversion H. constructor.
  - apply bind_ok in H as (b & Hb & H). apply bind_ok in H as (bs' & Hbs & H).
    inversion H; subst. constructor; auto.
Qed.

(** The [authors] of a record are the names of the entry's authors, one per
    author and in the order of the entry; without an [authors] field the
    list is empty. *)
Theorem authors_in_order d p :
  make_paper (VDict d) = OK p ->
  (forall l, dict_lookup "authors" d = Some (VList l) ->
             Forall2 (fun author name => py_getitem author "name" = OK name) l (authors p)) /\
  (dict_lookup "authors" d = None -> authors p = []).
Proof.
  intros Hp. apply make_paper_inv in Hp as (d' & refs & formatted & _ & _ & Ha & _).
  unfold author_names in Ha. cbn [py_get bind] in Ha. split.
  - intros l Hl. rewrite Hl in Ha. cbn [py_iter bind] in Ha.
    apply mapM_Forall2. assumption.
  - intros Hnone. rewrite Hnone in Ha. cbn in Ha. inversion Ha. reflexivity.
Qed.

(** An entry without [title] gets the placeholder; a title the entry
    carries is copied as it is. *)
Theorem missing_title d p :
  make_paper (VDict d) = OK p ->
  (dict_lookup "title" d = None -> title p = VStr "No title") /\
  (forall v, dict_lookup "title" d = Some v -> title p = v).
Proof.
  intros Hp. apply make_paper_inv in Hp as (d' & refs & formatted & _ & Ht & _).
  cbn [py_get] in Ht. inversion Ht as [Ht'].
  split; intros; match goal with H : dict_lookup _ _ = _ |- _ => rewrite H end; reflexivity.
Qed.

(** The citation of the fetcher is the text of [format_reference] behind
    the bracketed index; the two fail on the same references, with the same
    exception. *)
Theorem formatted_reference_is_indexed_format_reference idx ref :
  formatted_reference idx ref =
  (s <- format_reference ref ;; OK ("[" ++ str_of_int idx ++ "] " ++ s)%string).
Proof.
  unfold formatted_reference, format_reference, citation.
  destruct ref as [| | | | |d]; try reflexivity.
  cbn [py_get bind]. destruct (author_names (VDict d)) as [names|e]; [|reflexivity].
  cbn [bind]. destruct (py_join ", " names) as [ref_authors|e]; reflexivity.
Qed.

(** For a reference whose authors are objects with string names,
    [format_reference] returns the names joined by commas, the quoted title
    and the year, with the placeholders for a missing title or year. *)
Theorem format_reference_well_formed d :
  well_formed_authors d = true ->
  exists names,
    author_names (VDict d) = OK (map VStr names) /\
    format_reference (VDict d) =
      OK (String.concat ", " names ++ ", " ++ str1 dquote
            ++ py_str (match dict_lookup "title" d with Some v => v | None => VStr "No title" end)
            ++ "," ++ str1 dquote ++ " "
            ++ py_str (match dict_lookup "year" d with Some v => v | None => VStr "Unknown" end)
            ++ ".")%string.
Proof.
  intros Hwf. destruct (well_formed_author_names d Hwf) as (names & Hnames).
  exists names. split; [assumption|]. unfold format_reference.
  rewrite Hnames. cbn [bind]. rewrite py_join_strings. reflexivity.
Qed.

(** * Further properties of the exporter and of the script *)

Lemma mapM_as_str_fails items :
  forallb is_string items = false -> mapM as_str items = Raise TypeError.
Proof.
  induction items as [|item items IH]; [discriminate|]. cbn [forallb mapM]. intros H.
  destruct item; try reflexivity. cbn [is_string andb] in H.
  cbn [as_str bind]. rewrite (IH H). reflexivity.
Qed.

Lemma py_join_fails sep items :
  forallb is_string items = false -> py_join sep items = Raise TypeError.
Proof. intros H. unfold py_join. rewrite mapM_as_str_fails by assumption. reflexivity. Qed.

Lemma paper_row_fails p :
  printable_record p = false -> paper_row p = Raise TypeError.
Proof. intros H. unfold paper_row. rewrite py_join_fails by assumption. reflexivity. Qed.

Lemma printable_all papers :
  forallb printable_record papers = true ->
  Forall (fun p => forallb is_string (authors p) = true) papers.
Proof.
  intros H. apply Forall_forall. intros p Hin.
  rewrite forallb_forall in H. apply H. assumption.
Qed.

Lemma write_rows_stops fs good bad rest : forall call written,
  (forall n, write_fails fs n = false) ->
  forallb printable_record good = true ->
  printable_record bad = false ->
  write_rows fs call (good ++ bad :: rest) written =
  (written ++ List.concat (map render_row (map expected_row good)), Some TypeError).
Proof.
  induction good as [|p good IH]; intros call written Hw Hgood Hbad.
  - cbn [app write_rows]. rewrite paper_row_fails by assumption.
    cbn. rewrite app_nil_r. reflexivity.
  - cbn [forallb] in Hgood. apply andb_prop in Hgood as [Hp Hgood].
    cbn [app write_rows]. rewrite paper_row_expected by assumption.
    rewrite Hw, IH by assumption. cbn [map List.concat]. rewrite <- app_assoc. reflexivity.
Qed.

(** The export stops at the first record with an author name that is not a
    string: the error is caught and reported, and the file is left with the
    header and the rows of the records before it. *)
Theorem export_stops_at_unprintable_record fs good bad rest folder_path filename :
  succeeds fs ->
  forallb printable_record good = true ->
  printable_record bad = false ->
  save_papers_to_file fs (good ++ bad :: rest) folder_path filename =
  OK ({| folders := [folder_path];
         files := [(os_path_join folder_path filename,
                    List.concat (map render_row (header_row :: map expected_row good)))] |},
      Failed TypeError).
Proof.
  intros (Hm & Ho & Hw & Hc) Hgood Hbad. unfold save_papers_to_file, write_file.
  rewrite Hm, Ho, Hw, write_rows_stops by assumption. reflexivity.
Qed.

(** A successful export of K records whose cells hold no line break
    writes a file of K + 1 lines. *)
Theorem export_line_count fs papers folder_path filename :
  succeeds fs ->
  forallb printable_record papers = true ->
  Forall (fun p => forallb single_line (expected_row p) = true) papers ->
  exists written,
    save_papers_to_file fs papers folder_path filename =
      OK ({| folders := [folder_path];
             files := [(os_path_join folder_path filename, written)] |},
          Saved (len papers) (os_path_join folder_path filename)) /\
    count_lines written = S (List.length papers).
Proof.
  intros Hfs Hprint Hlines. eexists. split.
  - apply save_succeeds; [assumption | apply printable_all; assumption].
  - rewrite count_lines_rows.
    + cbn [List.length]. rewrite length_map. reflexivity.
    + constructor; [reflexivity|]. apply Forall_map. assumption.
Qed.



(** When nothing is retrieved the script still exports: on a file system
    that works, the CSV file is created with the header alone and the
    export of 0 records is reported. *)
Theorem main_without_results api fs :
  search_semantic_scholar api "machine learning" 1000 10 = OK [] ->
  succeeds fs ->
  main api fs =
    OK (["Starting paper retrieval..."; "Total papers retrieved: 0"; "No papers retrieved."]%string,
        ({| folders := ["output_papers"%string];
            files := [("output_papers/semantic_scholar_papers.csv"%string,
                       list_ascii_of_string "Title,Authors,Published,Summary,PDF URL,References"
                         ++ [cr; lf])] |},
         Saved 0 "output_papers/semantic_scholar_papers.csv")).
Proof.
  intros Hfetch Hfs. unfold main. rewrite Hfetch. cbn [bind].
  rewrite (save_succeeds fs [] _ _ Hfs (Forall_nil _)). reflexivity.
Qed.

(** The fetcher does not check the author names: a name that is not a
    string (a null, a number) is copied into the record, which then cannot
    be printed by the script nor exported. *)
Theorem non_string_author_name_is_kept d p l author name :
  make_paper (VDict d) = OK p ->
  dict_lookup "authors" d = Some (VList l) ->
  In author l ->
  py_getitem author "name" = OK name ->
  is_string name = false ->
  In name (authors p) /\ printable_record p = false.
Proof.
  intros Hp Hl Hin Hname Hkind.
  apply make_paper_inv in Hp as (d' & refs & formatted & _ & _ & Ha & _).
  unfold author_names in Ha. cbn [py_get bind] in Ha. rewrite Hl in Ha.
  cbn [py_iter bind] in Ha. apply mapM_Forall2 in Ha.
  assert (Hkept : In name (authors p)).
  { revert Ha Hin. generalize (authors p). clear - Hname.
    induction l as [|a l IH]; intros names Ha Hin; [contradiction|].
    inversion Ha as [|? n ? names' Hhd Htl]; subst.
    destruct Hin as [-> | Hin]; [left; congruence | right; auto]. }
  split; [assumption|]. unfold printable_record.
  destruct (forallb is_string (authors p)) eqn:Hall; [|reflexivity].
  rewrite forallb_forall in Hall. specialize (Hall _ Hkept). congruence.
Qed.

(** ** The further properties at concrete inputs *)

Lemma empty_range_sends_nothing_at_zero_maximum :
  ((0 < 10 /\ 0 <= 0) \/ (10 < 0 /\ 0 <= 0)) /\
  search_run one_result "machine learning" 0 10 = OK ([], []).
Proof.
  split; [left; lia|].
  apply (empty_range_sends_nothing one_result "machine learning" 0 10). left. lia.
Defined.

Lemma request_offsets_at_second_request :
  search_run over_delivering "machine learning" 2 1 =
    OK ([bare_paper; bare_paper; bare_paper],
        [([], request_for "machine learning" 0 1);
         ([bare_paper; bare_paper], request_for "machine learning" 1 0)]) /\
  q_offset (request_for "machine learning" 1 0) = Z.of_nat 1 * 1.
Proof.
  split; [reflexivity|].
  destruct (request_offsets over_delivering "machine learning" 2 1
              [bare_paper; bare_paper; bare_paper]
              [([], request_for "machine learning" 0 1);
               ([bare_paper; bare_paper], request_for "machine learning" 1 0)]
              eq_refl) as [_ Hnth].
  apply (Hnth 1%nat [bare_paper; bare_paper] (request_for "machine learning" 1 0) eq_refl).
Defined.

Lemma records_only_grow_at_second_request :
  search_run over_delivering "machine learning" 2 1 =
    OK ([bare_paper; bare_paper; bare_paper],
        [([], request_for "machine learning" 0 1);
         ([bare_paper; bare_paper], request_for "machine learning" 1 0)]) /\
  exists later, [bare_paper; bare_paper; bare_paper] = [bare_paper; bare_paper] ++ later.
Proof.
  split; [reflexivity|].
  apply (records_only_grow over_delivering "machine learning" 2 1
           [bare_paper; bare_paper; bare_paper]
           [([], request_for "machine learning" 0 1);
            ([bare_paper; bare_paper], request_for "machine learning" 1 0)]
           [bare_paper; bare_paper] (request_for "machine learning" 1 0) eq_refl).
  right. left. reflexivity.
Defined.

Lemma malformed_entry_keeps_earlier_at_string_entry :
  page_results (page_of [bare_entry; VStr "oops"]) = Some ([bare_entry] ++ VStr "oops" :: []) /\
  make_paper (VStr "oops") = Raise AttributeError /\
  exists added,
    mapM make_paper [bare_entry] = OK added /\
    process_page 10 10 [] (page_of [bare_entry; VStr "oops"]) =
      ([] ++ added, Break (Caught AttributeError)).
Proof.
  split; [reflexivity|]. split; [reflexivity|].
  apply (malformed_entry_keeps_earlier 10 10 [] (page_of [bare_entry; VStr "oops"])
           [bare_entry] (VStr "oops") [] AttributeError);
    [reflexivity | reflexivity | reflexivity | cbn; lia].
Defined.

Lemma unusable_page_stops_at_list_body :
  page_results (Response 200 (Some (VList [VStr "data"]))) = None /\
  exists why,
    process_page 10 10 [bare_paper] (Response 200 (Some (VList [VStr "data"]))) =
      ([bare_paper], Break why).
Proof.
  split; [reflexivity|].
  apply (unusable_page_stops 10 10 [bare_paper] (Response 200 (Some (VList [VStr "data"])))).
  reflexivity.
Defined.

Lemma ten_results_are_full_pages call req :
  exists entries,
    page_results (ten_results call req) = Some entries /\
    Z.of_nat (List.length entries) = 10 /\
    forallb well_formed_entry entries = true.
Proof. exists (repeat bare_entry 10). repeat split. Qed.

Lemma full_pages_reach_maximum_at_25 :
  0 < 10 /\ 0 <= 25 /\
  exists final tr,
    search_run ten_results "machine learning" 25 10 = OK (final, tr) /\
    len final = 25 /\
    Z.of_nat (List.length tr) = (25 + 10 - 1) / 10.
Proof.
  split; [lia|]. split; [lia|].
  apply (full_pages_reach_maximum ten_results "machine learning" 25 10);
    [lia | lia | exact ten_results_are_full_pages].
Defined.

Lemma one_result_fits call req results :
  page_results (one_result call req) = Some results ->
  Z.of_nat (List.length results) <= 10.
Proof. intros H. inversion H; subst. cbn. lia. Qed.

Lemma limit_is_positive_at_one_result :
  0 < 10 /\
  search_run one_result "machine learning" 10 10 =
    OK ([bare_paper], [([], request_for "machine learning" 0 10)]) /\
  1 <= q_limit (request_for "machine learning" 0 10) <= 10.
Proof.
  split; [lia|]. split; [reflexivity|].
  apply (limit_is_positive one_result "machine learning" 10 10 [bare_paper]
           [([], request_for "machine learning" 0 10)] []
           (request_for "machine learning" 0 10));
    [lia | exact one_result_fits | reflexivity | left; reflexivity].
Defined.

Lemma within_maximum_at_one_result :
  0 <= 10 /\
  search_semantic_scholar one_result "machine learning" 10 10 = OK [bare_paper] /\
  len [bare_paper] <= 10.
Proof.
  split; [lia|]. split; [reflexivity|].
  apply (within_maximum one_result "machine learning" 10 10 [bare_paper]);
    [lia | exact one_result_fits | reflexivity].
Defined.

Lemma short_first_page_returned_whole_at_one_result :
  0 < 10 /\
  (forall req, page_results (one_result 0%nat req) = Some [bare_entry]) /\
  Z.of_nat (List.length [bare_entry]) < 10 /\
  exists records,
    mapM make_paper [bare_entry] = OK records /\
    search_run one_result "machine learning" 10 10 =
      OK (records, [([], make_request "machine learning" 10 10 0 [])]).
Proof.
  split; [lia|]. split; [reflexivity|]. split; [cbn; lia|].
  apply (short_first_page_returned_whole one_result "machine learning" 10 10 [bare_entry]);
    [lia | reflexivity | reflexivity | cbn; lia | cbn; lia].
Defined.

Lemma authors_in_order_at_unnamed_author :
  make_paper unnamed_author_entry = OK unnamed_author_paper /\
  Forall2 (fun author name => py_getitem author "name" = OK name)
          [VDict [("name"%string, VNone)]] (authors unnamed_author_paper).
Proof.
  split; [reflexivity|].
  destruct (authors_in_order
              [("title"%string, VStr "Trees");
               ("authors"%string, VList [VDict [("name"%string, VNone)]])]
              unnamed_author_paper eq_refl) as [Hsome _].
  apply Hsome. reflexivity.
Defined.

Lemma missing_title_at_bare_entry :
  make_paper (VDict []) = OK bare_paper /\ title bare_paper = VStr "No title".
Proof.
  split; [reflexivity|].
  destruct (missing_title [] bare_paper eq_refl) as [Hnone _]. apply Hnone. reflexivity.
Defined.

Lemma format_reference_well_formed_at_empty_object :
  well_formed_authors [] = true /\
  exists names,
    author_names (VDict []) = OK (map VStr names) /\
    format_reference (VDict []) =
      OK (String.concat ", " names ++ ", " ++ str1 dquote ++ py_str (VStr "No title")
            ++ "," ++ str1 dquote ++ " " ++ py_str (VStr "Unknown") ++ ".")%string.
Proof.
  split; [reflexivity|]. apply (format_reference_well_formed [] eq_refl).
Defined.

Lemma non_string_author_name_is_kept_at_null_name :
  make_paper unnamed_author_entry = OK unnamed_author_paper /\
  In VNone (authors unnamed_author_paper) /\
  printable_record unnamed_author_paper = false.
Proof.
  split; [reflexivity|].
  apply (non_string_author_name_is_kept
           [("title"%string, VStr "Trees");
            ("authors"%string, VList [VDict [("name"%string, VNone)]])]
           unnamed_author_paper [VDict [("name"%string, VNone)]]
           (VDict [("name"%string, VNone)]) VNone);
    [reflexivity | reflexivity | left; reflexivity | reflexivity | reflexivity].
Defined.

Lemma export_stops_at_unprintable_record_at_second_record :
  succeeds reliable /\
  printable_record unnamed_author_paper = false /\
  save_papers_to_file reliable ([bare_paper] ++ unnamed_author_paper :: [bare_paper])
      "output_papers" "semantic_scholar_papers.csv" =
    OK ({| folders := ["output_papers"%string];
           files := [(os_path_join "output_papers" "semantic_scholar_papers.csv",
                      List.concat (map render_row (header_row :: map expected_row [bare_paper])))] |},
        Failed TypeError).
Proof.
  split; [exact reliable_succeeds|]. split; [reflexivity|].
  apply (export_stops_at_unprintable_record reliable [bare_paper] unnamed_author_paper
           [bare_paper] "output_papers" "semantic_scholar_papers.csv");
    [exact reliable_succeeds | reflexivity | reflexivity].
Defined.

Lemma export_line_count_at_one_record :
  succeeds reliable /\
  exists written,
    save_papers_to_file reliable [bare_paper] "output_papers" "semantic_scholar_papers.csv" =
      OK ({| folders := ["output_papers"%string];
             files := [(os_path_join "output_papers" "semantic_scholar_papers.csv", written)] |},
          Saved (len [bare_paper])
                (os_path_join "output_papers" "semantic_scholar_papers.csv")) /\
    count_lines written = 2%nat.
Proof.
  split; [exact reliable_succeeds|].
  apply (export_line_count reliable [bare_paper] "output_papers" "semantic_scholar_papers.csv");
    [exact reliable_succeeds | reflexivity | constructor; [reflexivity | constructor]].
Defined.

Lemma script_fetches_nothing_when_failing :
  search_semantic_scholar failing "machine learning" 1000 10 = OK [].
Proof. vm_compute. reflexivity. Qed.

Lemma main_without_results_at_failing :
  search_semantic_scholar failing "machine learning" 1000 10 = OK [] /\
  succeeds reliable /\
  main failing reliable =
    OK (["Starting paper retrieval..."; "Total papers retrieved: 0"; "No papers retrieved."]%string,
        ({| folders := ["output_papers"%string];
            files := [("output_papers/semantic_scholar_papers.csv"%string,
                       list_ascii_of_string "Title,Authors,Published,Summary,PDF URL,References"
                         ++ [cr; lf])] |},
         Saved 0 "output_papers/semantic_scholar_papers.csv")).
Proof.
  split; [exact script_fetches_nothing_when_failing|]. split; [exact reliable_succeeds|].
  apply (main_without_results failing reliable
           script_fetches_nothing_when_failing reliable_succeeds).
Defined.


